(** * Verification of airflow_pg_healthcheck.py

    Shallow embedding of the Airflow/Postgres exporter: the environment
    reader [env], the start-up configuration, and one scrape cycle
    [scrape_once], written in a small state/exception monad that threads
    the Prometheus gauges, the local variables of [scrape_once], the log of
    database interactions and (as ghost state) the successive values of the
    local [status]. Its statistics rows carry no SQL NULL; module [Py]
    re-embeds the cycle with the SUM columns nullable, and
    [nonnull_cycle_refines] shows the two agree on NULL-free rows. *)

From Stdlib Require Import ZArith QArith List String Ascii Bool Sorted Lia.
Import ListNotations.
Open Scope Z_scope.

(** ** Python exceptions that matter for the cycle *)

Inductive py_exn :=
| OperationalError            (* psycopg2.OperationalError: cannot connect *)
| DatabaseError               (* any other driver error raised by a query *)
| RuntimeError (msg : string)  (* raised by [env] for a missing variable *)
| ValueError                  (* int() of a malformed string *)
| TypeError.                  (* int(None) *)

Inductive result (A : Type) :=
| Ok (a : A)
| Err (e : py_exn).
Arguments Ok {A} a.
Arguments Err {A} e.

(** ** The published gauges (module-level [Gauge] objects)

    A Prometheus gauge holds one float; the registry is a store from gauge
    name to its current value, overwritten in place by [.set]. *)

Inductive gauge_name :=
| PG_UP | PG_LATENCY_MS | PG_DB_TOTAL | PG_DB_ACTIVE | PG_DB_IDLE_IN_TX
| PG_AF_TOTAL | PG_AF_ACTIVE | PG_AF_IDLE_IN_TX | PG_STATUS.

Definition gauge_name_eq_dec (a b : gauge_name) : {a = b} + {a <> b}.
Proof. decide equality. Defined.

Definition gauges := gauge_name -> Q.

(** [Gauge.set(v)]. *)
Definition gauge_set (n : gauge_name) (v : Q) (g : gauges) : gauges :=
  fun m => if gauge_name_eq_dec m n then v else g m.

(** The six session-count gauges. *)
Definition count_gauges : list gauge_name :=
  [PG_DB_TOTAL; PG_DB_ACTIVE; PG_DB_IDLE_IN_TX; PG_AF_TOTAL; PG_AF_ACTIVE; PG_AF_IDLE_IN_TX].

(** ** The world a cycle talks to

    What the network, the driver and the clock answer during one cycle:
    whether [tcp_check] connects, whether [psycopg2.connect] succeeds
    (a failed connection attempt raises [OperationalError]), what each
    [cur.execute(...); cur.fetchone()] pair raises or returns, and the two
    [time.time()] readings around the liveness query. *)

Inductive outcome (A : Type) :=
| Raises (e : py_exn)
| Returns (r : A).
Arguments Raises {A} e.
Arguments Returns {A} r.

(** A [pg_stat_activity] row: (active, idle_in_tx, total). *)
Definition stats_row := (Z * Z * Z)%type.

Record world := mkWorld {
  w_tcp_ok : bool;
  w_connect_ok : bool;
  w_select1 : outcome (option (list Z));  (* fetchone() of SELECT 1 *)
  w_t0 : Q;                                (* time.time() before *)
  w_t1 : Q;                                (* time.time() after *)
  w_db_stats : outcome (option stats_row); (* fetchone() of the DB query *)
  w_af_stats : outcome (option stats_row)  (* fetchone() of the Airflow query *)
}.

Inductive query := SELECT_1 | DB_STATS_QUERY | AF_STATS_QUERY.

(** Interactions with the outside world, in order. *)
Inductive event :=
| EvTcpCheck
| EvConnect
| EvExecute (q : query)
| EvClose.

(** The three warning thresholds ([WARN_*] module constants). *)
Record thresholds := mkThresholds {
  WARN_IDLE_IN_TX : Z;
  WARN_ACTIVE_CONN : Z;
  WARN_LATENCY_MS : Z
}.

(** ** Local variables of [scrape_once] *)

Record locals := mkLocals {
  status : Z;
  latency_ms : Q;
  db_total : Z; db_active : Z; db_idle_in_tx : Z;
  af_total : Z; af_active : Z; af_idle_in_tx : Z
}.

Definition locals0 : locals := mkLocals 0 0 0 0 0 0 0 0.

Definition with_status (v : Z) (l : locals) : locals :=
  mkLocals v (latency_ms l) (db_total l) (db_active l) (db_idle_in_tx l)
           (af_total l) (af_active l) (af_idle_in_tx l).

Definition with_latency (v : Q) (l : locals) : locals :=
  mkLocals (status l) v (db_total l) (db_active l) (db_idle_in_tx l)
           (af_total l) (af_active l) (af_idle_in_tx l).

(** [db_active, db_idle_in_tx, db_total = r] *)
Definition with_db (r : stats_row) (l : locals) : locals :=
  let '(a, i, t) := r in
  mkLocals (status l) (latency_ms l) t a i (af_total l) (af_active l) (af_idle_in_tx l).

(** [af_active, af_idle_in_tx, af_total = r] *)
Definition with_af (r : stats_row) (l : locals) : locals :=
  let '(a, i, t) := r in
  mkLocals (status l) (latency_ms l) (db_total l) (db_active l) (db_idle_in_tx l) t a i.

(** ** The state/exception monad *)

Record state := mkState {
  st_gauges : gauges;
  st_locals : locals;
  st_log : list event;
  st_trace : list Z   (* ghost: every value assigned to [status], in order *)
}.

Definition M (A : Type) := state -> result A * state.

Definition ret {A} (a : A) : M A := fun s => (Ok a, s).

Definition bind {A B} (m : M A) (k : A -> M B) : M B :=
  fun s => match m s with
           | (Ok a, s') => k a s'
           | (Err e, s') => (Err e, s')
           end.

Notation "x <- m ;; k" := (bind m (fun x => k))
  (at level 61, m at next level, right associativity).
Notation "m ;; k" := (bind m (fun _ => k))
  (at level 61, right associativity).

Definition skip : M unit := ret tt.

Definition raise {A} (e : py_exn) : M A := fun s => (Err e, s).

(** [try: body except ...: handler(e)]; the handler re-raises what it does
    not catch. *)
Definition try_except {A} (body : M A) (handler : py_exn -> M A) : M A :=
  fun s => match body s with
           | (Ok a, s') => (Ok a, s')
           | (Err e, s') => handler e s'
           end.

(** [try: body except ...: handler(e) finally: fin] *)
Definition try_except_finally {A} (body : M A) (handler : py_exn -> M A)
    (fin : M unit) : M A :=
  fun s => let '(r, s1) := try_except body handler s in
           match fin s1 with
           | (Ok _, s2) => (r, s2)
           | (Err e, s2) => (Err e, s2)
           end.

Definition emit (ev : event) : M unit :=
  fun s => (Ok tt, mkState (st_gauges s) (st_locals s) (st_log s ++ [ev]) (st_trace s)).

Definition set_gauge (n : gauge_name) (v : Q) : M unit :=
  fun s => (Ok tt, mkState (gauge_set n v (st_gauges s)) (st_locals s) (st_log s) (st_trace s)).

Definition get_locals : M locals := fun s => (Ok (st_locals s), s).

(** Assignment to a local other than [status]. *)
Definition modify_locals (f : locals -> locals) : M unit :=
  fun s => (Ok tt, mkState (st_gauges s) (f (st_locals s)) (st_log s) (st_trace s)).

(** [status = v] *)
Definition assign_status (v : Z) : M unit :=
  fun s => (Ok tt, mkState (st_gauges s) (with_status v (st_locals s)) (st_log s)
                           (st_trace s ++ [v])).

(** [status = max(status, k)] *)
Definition status_max (k : Z) : M unit :=
  l <- get_locals ;; assign_status (Z.max (status l) k).

(** ** Primitive operations of the cycle *)

(** [tcp_check(PG_HOST, PG_PORT)]: its [OSError] is caught inside, so it
    only answers a boolean. *)
Definition tcp_check (w : world) : M bool :=
  emit EvTcpCheck ;; ret (w_tcp_ok w).

(** [psycopg2.connect(...)]; [conn.autocommit = True]. *)
Definition pg_connect (w : world) : M unit :=
  emit EvConnect ;; if w_connect_ok w then ret tt else raise OperationalError.

(** [cur.execute(q); cur.fetchone()] *)
Definition execute_fetchone {A} (q : query) (o : outcome A) : M A :=
  emit (EvExecute q) ;;
  match o with
  | Raises e => raise e
  | Returns r => ret r
  end.

(** [conn.close()] *)
Definition conn_close : M unit := emit EvClose.

(** [cur.fetchone() or (0, 0, 0)]: [None] is the only falsy row. *)
Definition row_or_zero (r : option stats_row) : stats_row :=
  match r with
  | Some x => x
  | None => (0, 0, 0)
  end.

(** [row != (1,)] *)
Definition row_ne_one (row : option (list Z)) : bool :=
  match row with
  | Some [z] => negb (z =? 1)
  | _ => true
  end.

(** Python comparisons between the float latency and an int threshold. *)
Definition q_ge (x y : Q) : bool := Qle_bool y x.
Definition q_gt (x y : Q) : bool := negb (Qle_bool x y).

(** [(time.time() - start) * 1000] *)
Definition elapsed_ms (start stop : Q) : Q := (stop - start) * inject_Z 1000.

(** ** [scrape_once] *)

(** The [with conn.cursor() as cur:] block (lines 131-169). *)
Definition query_block (w : world) : M unit :=
  let start := w_t0 w in
  row <- execute_fetchone SELECT_1 (w_select1 w) ;;
  modify_locals (with_latency (elapsed_ms start (w_t1 w))) ;;
  (if row_ne_one row then status_max 2 else skip) ;;
  r1 <- execute_fetchone DB_STATS_QUERY (w_db_stats w) ;;
  modify_locals (with_db (row_or_zero r1)) ;;
  r2 <- execute_fetchone AF_STATS_QUERY (w_af_stats w) ;;
  modify_locals (with_af (row_or_zero r2)).

(** Threshold analysis and publication (lines 176-198). *)
Definition analyse (th : thresholds) : M unit :=
  l <- get_locals ;;
  (if q_ge (latency_ms l) 0
   then set_gauge PG_LATENCY_MS (latency_ms l) ;;
        (if q_gt (latency_ms l) (inject_Z (WARN_LATENCY_MS th)) then status_max 1 else skip)
   else set_gauge PG_LATENCY_MS (-1) ;;
        status_max 2) ;;
  set_gauge PG_DB_TOTAL (inject_Z (db_total l)) ;;
  set_gauge PG_DB_ACTIVE (inject_Z (db_active l)) ;;
  set_gauge PG_DB_IDLE_IN_TX (inject_Z (db_idle_in_tx l)) ;;
  set_gauge PG_AF_TOTAL (inject_Z (af_total l)) ;;
  set_gauge PG_AF_ACTIVE (inject_Z (af_active l)) ;;
  set_gauge PG_AF_IDLE_IN_TX (inject_Z (af_idle_in_tx l)) ;;
  (if WARN_IDLE_IN_TX th <? db_idle_in_tx l then status_max 1 else skip) ;;
  (if WARN_ACTIVE_CONN th <? db_active l then status_max 1 else skip) ;;
  l' <- get_locals ;;
  set_gauge PG_STATUS (inject_Z (status l')).

Definition scrape_once (th : thresholds) (w : world) : M unit :=
  assign_status 0 ;;
  up <- tcp_check w ;;
  if negb up then
    set_gauge PG_UP 0 ;;
    set_gauge PG_LATENCY_MS (-1) ;;
    set_gauge PG_STATUS 2 ;;
    ret tt
  else
    connected <- try_except (pg_connect w ;; ret true)
                   (fun e => match e with
                             | OperationalError =>
                                 set_gauge PG_UP 0 ;;
                                 set_gauge PG_LATENCY_MS (-1) ;;
                                 set_gauge PG_STATUS 2 ;;
                                 ret false
                             | _ => raise e
                             end) ;;
    if negb connected then ret tt
    else
      set_gauge PG_UP 1 ;;
      modify_locals (with_latency (-1)) ;;
      modify_locals (with_db (0, 0, 0)) ;;
      modify_locals (with_af (0, 0, 0)) ;;
      try_except_finally (query_block w)
        (fun _ => status_max 2)   (* except Exception *)
        conn_close ;;
      analyse th.

(** One call of [scrape_once] from the gauges published so far: the locals
    are fresh, the log and the status trace start empty. *)
Definition run_cycle (th : thresholds) (w : world) (g : gauges) : result unit * state :=
  scrape_once th w (mkState g locals0 [] []).

Definition cycle_gauges th w g : gauges := st_gauges (snd (run_cycle th w g)).
Definition cycle_log th w g : list event := st_log (snd (run_cycle th w g)).
Definition cycle_status th w g : Q := cycle_gauges th w g PG_STATUS.

(** ** Environment variables and start-up configuration *)

(** Python values flowing through [env]. *)
Inductive pyval :=
| PyNone
| PyStr (s : string)
| PyInt (z : Z).

(** [os.environ]: name/value pairs, the first binding wins. *)
Definition environ := list (string * string).

Fixpoint getenv (name : string) (e : environ) : option string :=
  match e with
  | [] => None
  | (k, v) :: e' => if String.eqb k name then Some v else getenv name e'
  end.

(** [os.getenv(name, default)] *)
Definition os_getenv (e : environ) (name : string) (default : pyval) : pyval :=
  match getenv name e with
  | Some v => PyStr v
  | None => default
  end.

(** Python's [str.strip()] / [int()] on ASCII text. *)
Definition is_py_space (c : ascii) : bool :=
  match nat_of_ascii c with
  | 32 | 9 | 10 | 11 | 12 | 13 => true
  | _ => false
  end%nat.

Fixpoint drop_spaces (l : list ascii) : list ascii :=
  match l with
  | c :: l' => if is_py_space c then drop_spaces l' else l
  | [] => []
  end.

Definition strip (l : list ascii) : list ascii := rev (drop_spaces (rev (drop_spaces l))).

Definition digit_value (c : ascii) : option Z :=
  let n := nat_of_ascii c in
  if (48 <=? n)%nat && (n <=? 57)%nat then Some (Z.of_nat (n - 48)) else None.

(** Digits with single underscores between digits, accumulated onto [acc];
    [prev_digit] says whether the previous character was a digit. *)
Fixpoint parse_digits (l : list ascii) (acc : Z) (prev_digit : bool) : option Z :=
  match l with
  | [] => if prev_digit then Some acc else None
  | c :: l' =>
      match digit_value c with
      | Some d => parse_digits l' (acc * 10 + d) true
      | None =>
          if (nat_of_ascii c =? 95)%nat && prev_digit
          then parse_digits l' acc false else None
      end
  end.

(** [int(s)] for a string [s]: [None] stands for the [ValueError]. *)
Definition py_int_of_string (s : string) : option Z :=
  match strip (list_ascii_of_string s) with
  | c :: l =>
      if (nat_of_ascii c =? 45)%nat then option_map Z.opp (parse_digits l 0 false)
      else if (nat_of_ascii c =? 43)%nat then parse_digits l 0 false
      else parse_digits (c :: l) 0 false
  | [] => None
  end.

(** Decimal rendering for [str(int)]. *)
Fixpoint digits_of_nat (fuel n : nat) (acc : string) : string :=
  match fuel with
  | O => acc
  | S f =>
      let acc' := String (ascii_of_nat (48 + n mod 10)) acc in
      if (n <? 10)%nat then acc' else digits_of_nat f (n / 10) acc'
  end.

Definition string_of_Z (z : Z) : string :=
  let n := Z.to_nat (Z.abs z) in
  let d := digits_of_nat (S n) n EmptyString in
  if z <? 0 then String (ascii_of_nat 45) d else d.

Inductive cast := CastStr | CastInt.

(** [cast(val)] for [cast] in [{str, int}]. *)
Definition py_cast (c : cast) (v : pyval) : result pyval :=
  match c, v with
  | CastStr, PyStr s => Ok (PyStr s)
  | CastStr, PyInt z => Ok (PyStr (string_of_Z z))
  | CastStr, PyNone => Ok (PyStr "None"%string)
  | CastInt, PyInt z => Ok (PyInt z)
  | CastInt, PyStr s =>
      match py_int_of_string s with
      | Some z => Ok (PyInt z)
      | None => Err ValueError
      end
  | CastInt, PyNone => Err TypeError
  end.

(** [env(name, default, required, cast)] *)
Definition env (e : environ) (name : string) (default : pyval) (required : bool)
    (c : cast) : result pyval :=
  let val := os_getenv e name default in
  match val with
  | PyNone =>
      if required then Err (RuntimeError ("Env var " ++ name ++ " is required")%string)
      else Ok PyNone
  | _ =>
      match py_cast c val with
      | Ok v => Ok v
      | Err _ => Ok default      (* except Exception: return default *)
      end
  end.

(** The module-level settings, read in source order (lines 26-40). *)
Record config := mkConfig {
  PG_HOST : pyval; PG_PORT : pyval; PG_DB : pyval; PG_USER : pyval;
  PG_PASSWORD : pyval; SCRAPE_INTERVAL : pyval; EXPORTER_PORT : pyval;
  EXPORTER_ADDR : pyval; CFG_WARN_IDLE_IN_TX : pyval;
  CFG_WARN_ACTIVE_CONN : pyval; CFG_WARN_LATENCY_MS : pyval
}.

Definition rbind {A B} (r : result A) (k : A -> result B) : result B :=
  match r with
  | Ok a => k a
  | Err e => Err e
  end.

Notation "x <-- r ;;; k" := (rbind r (fun x => k))
  (at level 61, r at next level, right associativity).

Definition load_config (e : environ) : result config :=
  host <-- env e "AF_PG_HOST"%string (PyStr "127.0.0.1"%string) false CastStr ;;;
  port <-- env e "AF_PG_PORT"%string (PyStr "5432"%string) false CastInt ;;;
  db <-- env e "AF_PG_DB"%string (PyStr "airflow"%string) false CastStr ;;;
  user <-- env e "AF_PG_USER"%string (PyStr "airflow"%string) false CastStr ;;;
  pw <-- env e "AF_PG_PASSWORD"%string PyNone true CastStr ;;;
  interval <-- env e "AF_SCRAPE_INTERVAL_SECONDS"%string (PyInt 10) false CastInt ;;;
  eport <-- env e "AF_EXPORTER_PORT"%string (PyInt 9105) false CastInt ;;;
  eaddr <-- env e "AF_EXPORTER_ADDR"%string (PyStr "0.0.0.0"%string) false CastStr ;;;
  widle <-- env e "AF_WARN_IDLE_IN_TX"%string (PyInt 5) false CastInt ;;;
  wact <-- env e "AF_WARN_ACTIVE_CONN"%string (PyInt 80) false CastInt ;;;
  wlat <-- env e "AF_WARN_LATENCY_MS"%string (PyInt 500) false CastInt ;;;
  Ok (mkConfig host port db user pw interval eport eaddr widle wact wlat).

(** ** The threshold analysis as a pure function

    Lines 176-196 read the locals and update [status] with three guarded
    [max] steps; [analysis_status] is that computation, [publish] the
    gauges written on the way. *)

Definition analysis_status (th : thresholds) (l : locals) : Z :=
  let s1 := if q_ge (latency_ms l) 0
            then if q_gt (latency_ms l) (inject_Z (WARN_LATENCY_MS th))
                 then Z.max (status l) 1 else status l
            else Z.max (status l) 2 in
  let s2 := if WARN_IDLE_IN_TX th <? db_idle_in_tx l then Z.max s1 1 else s1 in
  if WARN_ACTIVE_CONN th <? db_active l then Z.max s2 1 else s2.

Definition publish (th : thresholds) (l : locals) (g : gauges) : gauges :=
  gauge_set PG_STATUS (inject_Z (analysis_status th l))
  (gauge_set PG_AF_IDLE_IN_TX (inject_Z (af_idle_in_tx l))
  (gauge_set PG_AF_ACTIVE (inject_Z (af_active l))
  (gauge_set PG_AF_TOTAL (inject_Z (af_total l))
  (gauge_set PG_DB_IDLE_IN_TX (inject_Z (db_idle_in_tx l))
  (gauge_set PG_DB_ACTIVE (inject_Z (db_active l))
  (gauge_set PG_DB_TOTAL (inject_Z (db_total l))
  (gauge_set PG_LATENCY_MS (if q_ge (latency_ms l) 0 then latency_ms l else -1) g))))))).

(** ** The classification in the spec's terms

    The spec describes a cycle by what the probes observed (a CRITICAL
    probe outcome, the measured latency or the sentinel [-1], the
    unfiltered and filtered count triples) and by a list of findings whose
    maximum is the overall severity. These definitions follow the spec's
    words; they are compared with [scrape_once] below. *)

Definition is_raised {A} (o : outcome A) : bool :=
  match o with
  | Raises _ => true
  | Returns _ => false
  end.

(** Liveness returned something other than [(1,)], or a query raised. *)
Definition probe_critical (w : world) : bool :=
  match w_select1 w with
  | Raises _ => true
  | Returns row => row_ne_one row || is_raised (w_db_stats w) || is_raised (w_af_stats w)
  end.

(** Measured latency in ms, or the sentinel [-1] when not measured. *)
Definition measured_latency (w : world) : Q :=
  match w_select1 w with
  | Raises _ => -1
  | Returns _ => elapsed_ms (w_t0 w) (w_t1 w)
  end.

(** Unfiltered (active, idle_in_tx, total), zero when never read. *)
Definition unfiltered_counts (w : world) : stats_row :=
  match w_select1 w, w_db_stats w with
  | Returns _, Returns r => row_or_zero r
  | _, _ => (0, 0, 0)
  end.

(** Filtered (active, idle_in_tx, total), zero when never read. *)
Definition filtered_counts (w : world) : stats_row :=
  match w_select1 w, w_db_stats w, w_af_stats w with
  | Returns _, Returns _, Returns r => row_or_zero r
  | _, _, _ => (0, 0, 0)
  end.

Definition row_active (r : stats_row) : Z := let '(a, _, _) := r in a.
Definition row_idle (r : stats_row) : Z := let '(_, i, _) := r in i.
Definition row_total (r : stats_row) : Z := let '(_, _, t) := r in t.

(** The locals of [scrape_once] when the threshold analysis starts, in
    the spec's terms. *)
Definition probe_locals (w : world) : locals :=
  let '(a, i, t) := unfiltered_counts w in
  let '(a', i', t') := filtered_counts w in
  mkLocals (if probe_critical w then 2 else 0) (measured_latency w) t a i t' a' i'.

(** Severity contributed by each threshold rule (0 when it does not
    trigger). *)
Definition latency_rule (th : thresholds) (lat : Q) : Z :=
  if q_ge lat 0
  then if q_gt lat (inject_Z (WARN_LATENCY_MS th)) then 1 else 0
  else 2.

Definition idle_rule (th : thresholds) (idle : Z) : Z :=
  if WARN_IDLE_IN_TX th <? idle then 1 else 0.

Definition active_rule (th : thresholds) (active : Z) : Z :=
  if WARN_ACTIVE_CONN th <? active then 1 else 0.

(** Severities of the findings triggered by one cycle. *)
Definition findings (th : thresholds) (crit : bool) (lat : Q) (idle active : Z) : list Z :=
  (if crit then [2] else []) ++
  (if q_ge lat 0
   then if q_gt lat (inject_Z (WARN_LATENCY_MS th)) then [1] else []
   else [2]) ++
  (if WARN_IDLE_IN_TX th <? idle then [1] else []) ++
  (if WARN_ACTIVE_CONN th <? active then [1] else []).

(** Overall severity: the maximum over the findings, OK (0) if none. *)
Definition overall_severity (fs : list Z) : Z := fold_right Z.max 0 fs.

(** ** Worlds used to instantiate the statements *)

(** The defaults of [WARN_IDLE_IN_TX], [WARN_ACTIVE_CONN], [WARN_LATENCY_MS]. *)
Definition default_thresholds : thresholds := mkThresholds 5 80 500.

(** Everything answers; SELECT 1 takes 50 ms; counts (2, 0, 10) and (1, 0, 3). *)
Definition healthy_world : world :=
  mkWorld true true (Returns (Some [1])) 0 (1 # 20)
          (Returns (Some (2, 0, 10))) (Returns (Some (1, 0, 3))).

(** The host does not answer on the port. *)
Definition unreachable_world : world :=
  mkWorld false true (Returns (Some [1])) 0 0 (Returns None) (Returns None).

(** The port answers but [psycopg2.connect] raises [OperationalError]. *)
Definition connect_refused_world : world :=
  mkWorld true false (Returns (Some [1])) 0 0 (Returns None) (Returns None).

(** The session opens, SELECT 1 raises. *)
Definition liveness_raises_world : world :=
  mkWorld true true (Raises DatabaseError) 0 0
          (Returns (Some (2, 0, 10))) (Returns (Some (1, 0, 3))).

(** Gauges left at 7 by an earlier cycle. *)
Definition earlier_gauges : gauges := fun _ => 7%Q.

(** The same world with a different answer to one statistics query. *)
Definition with_db_stats (w : world) (o : outcome (option stats_row)) : world :=
  mkWorld (w_tcp_ok w) (w_connect_ok w) (w_select1 w) (w_t0 w) (w_t1 w) o (w_af_stats w).

Definition with_af_stats (w : world) (o : outcome (option stats_row)) : world :=
  mkWorld (w_tcp_ok w) (w_connect_ok w) (w_select1 w) (w_t0 w) (w_t1 w) (w_db_stats w) o.

(** A query of the cycle raised (the later ones are then not executed). *)
Definition query_raised (w : world) : bool :=
  match w_select1 w, w_db_stats w with
  | Raises _, _ => true
  | Returns _, Raises _ => true
  | Returns _, Returns _ => is_raised (w_af_stats w)
  end.

(** The gauges written by both early returns of [scrape_once]. *)
Definition degraded (g : gauges) : gauges :=
  gauge_set PG_STATUS 2 (gauge_set PG_LATENCY_MS (-1) (gauge_set PG_UP 0 g)).

(** ** The daemon loop

    [main()] starts the HTTP server, prints a start-up line, then runs
    [while True: scrape_once(); time.sleep(SCRAPE_INTERVAL)]. Sleeping
    touches no gauge; [main_loop] is the first [length ws] iterations, one
    world per iteration, from the gauges [g]. *)
Fixpoint main_loop (th : thresholds) (ws : list world) (g : gauges) : gauges :=
  match ws with
  | [] => g
  | w :: ws' => main_loop th ws' (cycle_gauges th w g)
  end.

(** Whether a cycle gets past both early returns. *)
Definition connected (w : world) : bool := w_tcp_ok w && w_connect_ok w.

(** The queries a connected cycle executes: each runs only if the previous
    one returned. *)
Definition executed_queries (w : world) : list query :=
  match w_select1 w, w_db_stats w with
  | Raises _, _ => [SELECT_1]
  | Returns _, Raises _ => [SELECT_1; DB_STATS_QUERY]
  | Returns _, Returns _ => [SELECT_1; DB_STATS_QUERY; AF_STATS_QUERY]
  end.

(** ** Rows with NULL sums

    [SUM(...)] over no row is SQL NULL, which psycopg2 hands over as
    [None]: a statistics query whose [WHERE] matches no session fetches
    [(None, None, 0)]. That tuple is truthy, so [or (0, 0, 0)] keeps it, and
    the [None]s reach [Gauge.set] (which calls [float(None)]: [TypeError])
    and the [>] comparisons ([None > int] is a [TypeError] in Python 3).
    [Py] re-embeds the cycle with the counts typed as Python holds them;
    [lift_world] maps a [world], whose rows carry no NULL, into it. *)

(** A statistics row as fetched: active and idle_in_tx are SUMs and may
    be NULL, total is a COUNT and never is. *)
Definition pg_row := (option Z * option Z * Z)%type.

Module Py.

Local Set Warnings "-notation-overridden".

Record world := mkWorld {
  w_tcp_ok : bool;
  w_connect_ok : bool;
  w_select1 : outcome (option (list Z));
  w_t0 : Q;
  w_t1 : Q;
  w_db_stats : outcome (option pg_row);
  w_af_stats : outcome (option pg_row)
}.

(** The locals of [scrape_once]; a count read from a SUM column may be
    [None]. *)
Record locals := mkLocals {
  status : Z;
  latency_ms : Q;
  db_total : Z; db_active : option Z; db_idle_in_tx : option Z;
  af_total : Z; af_active : option Z; af_idle_in_tx : option Z
}.

Definition locals0 : locals := mkLocals 0 0 0 (Some 0) (Some 0) 0 (Some 0) (Some 0).

Definition with_status (v : Z) (l : locals) : locals :=
  mkLocals v (latency_ms l) (db_total l) (db_active l) (db_idle_in_tx l)
           (af_total l) (af_active l) (af_idle_in_tx l).

Definition with_latency (v : Q) (l : locals) : locals :=
  mkLocals (status l) v (db_total l) (db_active l) (db_idle_in_tx l)
           (af_total l) (af_active l) (af_idle_in_tx l).

(** [db_active, db_idle_in_tx, db_total = r] *)
Definition with_db (r : pg_row) (l : locals) : locals :=
  let '(a, i, t) := r in
  mkLocals (status l) (latency_ms l) t a i (af_total l) (af_active l) (af_idle_in_tx l).

(** [af_active, af_idle_in_tx, af_total = r] *)
Definition with_af (r : pg_row) (l : locals) : locals :=
  let '(a, i, t) := r in
  mkLocals (status l) (latency_ms l) (db_total l) (db_active l) (db_idle_in_tx l) t a i.

Record state := mkState {
  st_gauges : gauges;
  st_locals : locals;
  st_log : list event
}.

Definition M (A : Type) := state -> result A * state.

Definition ret {A} (a : A) : M A := fun s => (Ok a, s).

Definition bind {A B} (m : M A) (k : A -> M B) : M B :=
  fun s => match m s with
           | (Ok a, s') => k a s'
           | (Err e, s') => (Err e, s')
           end.

Local Notation "x <- m ;; k" := (bind m (fun x => k))
  (at level 61, m at next level, right associativity).
Local Notation "m ;; k" := (bind m (fun _ => k))
  (at level 61, right associativity).

Definition skip : M unit := ret tt.

Definition raise {A} (e : py_exn) : M A := fun s => (Err e, s).

Definition try_except {A} (body : M A) (handler : py_exn -> M A) : M A :=
  fun s => match body s with
           | (Ok a, s') => (Ok a, s')
           | (Err e, s') => handler e s'
           end.

Definition try_except_finally {A} (body : M A) (handler : py_exn -> M A)
    (fin : M unit) : M A :=
  fun s => let '(r, s1) := try_except body handler s in
           match fin s1 with
           | (Ok _, s2) => (r, s2)
           | (Err e, s2) => (Err e, s2)
           end.

Definition emit (ev : event) : M unit :=
  fun s => (Ok tt, mkState (st_gauges s) (st_locals s) (st_log s ++ [ev])).

Definition set_gauge (n : gauge_name) (v : Q) : M unit :=
  fun s => (Ok tt, mkState (gauge_set n v (st_gauges s)) (st_locals s) (st_log s)).

(** [Gauge.set(v)] for a local holding an int or [None]: [float(None)]
    raises [TypeError]. *)
Definition set_gauge_int (n : gauge_name) (v : option Z) : M unit :=
  match v with
  | Some z => set_gauge n (inject_Z z)
  | None => raise TypeError
  end.

(** [v > k] for a local [v] holding an int or [None], and an int [k]. *)
Definition py_gt (v : option Z) (k : Z) : M bool :=
  match v with
  | Some z => ret (k <? z)
  | None => raise TypeError
  end.

Definition get_locals : M locals := fun s => (Ok (st_locals s), s).

Definition modify_locals (f : locals -> locals) : M unit :=
  fun s => (Ok tt, mkState (st_gauges s) (f (st_locals s)) (st_log s)).

Definition assign_status (v : Z) : M unit := modify_locals (with_status v).

Definition status_max (k : Z) : M unit :=
  l <- get_locals ;; assign_status (Z.max (status l) k).

Definition tcp_check (w : world) : M bool :=
  emit EvTcpCheck ;; ret (w_tcp_ok w).

Definition pg_connect (w : world) : M unit :=
  emit EvConnect ;; if w_connect_ok w then ret tt else raise OperationalError.

Definition execute_fetchone {A} (q : query) (o : outcome A) : M A :=
  emit (EvExecute q) ;;
  match o with
  | Raises e => raise e
  | Returns r => ret r
  end.

Definition conn_close : M unit := emit EvClose.

(** [cur.fetchone() or (0, 0, 0)]: a tuple is truthy whatever it holds,
    so only a missing row ([None]) is replaced. *)
Definition row_or_zero (r : option pg_row) : pg_row :=
  match r with
  | Some x => x
  | None => (Some 0, Some 0, 0)
  end.

(** Lines 131-169. *)
Definition query_block (w : world) : M unit :=
  let start := w_t0 w in
  row <- execute_fetchone SELECT_1 (w_select1 w) ;;
  modify_locals (with_latency (elapsed_ms start (w_t1 w))) ;;
  (if row_ne_one row then status_max 2 else skip) ;;
  r1 <- execute_fetchone DB_STATS_QUERY (w_db_stats w) ;;
  modify_locals (with_db (row_or_zero r1)) ;;
  r2 <- execute_fetchone AF_STATS_QUERY (w_af_stats w) ;;
  modify_locals (with_af (row_or_zero r2)).

(** Lines 176-198. *)
Definition analyse (th : thresholds) : M unit :=
  l <- get_locals ;;
  (if q_ge (latency_ms l) 0
   then set_gauge PG_LATENCY_MS (latency_ms l) ;;
        (if q_gt (latency_ms l) (inject_Z (WARN_LATENCY_MS th)) then status_max 1 else skip)
   else set_gauge PG_LATENCY_MS (-1) ;;
        status_max 2) ;;
  set_gauge PG_DB_TOTAL (inject_Z (db_total l)) ;;
  set_gauge_int PG_DB_ACTIVE (db_active l) ;;
  set_gauge_int PG_DB_IDLE_IN_TX (db_idle_in_tx l) ;;
  set_gauge PG_AF_TOTAL (inject_Z (af_total l)) ;;
  set_gauge_int PG_AF_ACTIVE (af_active l) ;;
  set_gauge_int PG_AF_IDLE_IN_TX (af_idle_in_tx l) ;;
  b1 <- py_gt (db_idle_in_tx l) (WARN_IDLE_IN_TX th) ;;
  (if b1 then status_max 1 else skip) ;;
  b2 <- py_gt (db_active l) (WARN_ACTIVE_CONN th) ;;
  (if b2 then status_max 1 else skip) ;;
  l' <- get_locals ;;
  set_gauge PG_STATUS (inject_Z (status l')).

Definition scrape_once (th : thresholds) (w : world) : M unit :=
  assign_status 0 ;;
  up <- tcp_check w ;;
  if negb up then
    set_gauge PG_UP 0 ;;
    set_gauge PG_LATENCY_MS (-1) ;;
    set_gauge PG_STATUS 2 ;;
    ret tt
  else
    connected <- try_except (pg_connect w ;; ret true)
                   (fun e => match e with
                             | OperationalError =>
                                 set_gauge PG_UP 0 ;;
                                 set_gauge PG_LATENCY_MS (-1) ;;
                                 set_gauge PG_STATUS 2 ;;
                                 ret false
                             | _ => raise e
                             end) ;;
    if negb connected then ret tt
    else
      set_gauge PG_UP 1 ;;
      modify_locals (with_latency (-1)) ;;
      modify_locals (with_db (Some 0, Some 0, 0)) ;;
      modify_locals (with_af (Some 0, Some 0, 0)) ;;
      try_except_finally (query_block w)
        (fun _ => status_max 2)   (* except Exception *)
        conn_close ;;
      analyse th.

Definition run_cycle (th : thresholds) (w : world) (g : gauges) : result unit * state :=
  scrape_once th w (mkState g locals0 []).

Definition cycle_gauges th w g : gauges := st_gauges (snd (run_cycle th w g)).

End Py.

(** A row of [world] (no NULL) as the driver returns it. *)
Definition lift_row (r : stats_row) : pg_row :=
  let '(a, i, t) := r in (Some a, Some i, t).

Definition lift_stats (o : outcome (option stats_row)) : outcome (option pg_row) :=
  match o with
  | Raises e => Raises e
  | Returns r => Returns (option_map lift_row r)
  end.

Definition lift_world (w : world) : Py.world :=
  Py.mkWorld (w_tcp_ok w) (w_connect_ok w) (w_select1 w) (w_t0 w) (w_t1 w)
             (lift_stats (w_db_stats w)) (lift_stats (w_af_stats w)).

Definition lift_locals (l : locals) : Py.locals :=
  Py.mkLocals (status l) (latency_ms l) (db_total l) (Some (db_active l))
              (Some (db_idle_in_tx l)) (af_total l) (Some (af_active l))
              (Some (af_idle_in_tx l)).

Definition lift_state (s : state) : Py.state :=
  Py.mkState (st_gauges s) (lift_locals (st_locals s)) (st_log s).

Definition result_map {A B} (f : A -> B) (r : result A) : result B :=
  match r with
  | Ok a => Ok (f a)
  | Err e => Err e
  end.

(** [pm] does what [m] does on the lifted state, its value mapped by [f]. *)
Definition simulates {A B} (f : A -> B) (m : M A) (pm : Py.M B) : Prop :=
  forall s, pm (lift_state s) = (result_map f (fst (m s)), lift_state (snd (m s))).

Lemma sim_ret {A} (a : A) : simulates (fun x => x) (ret a) (Py.ret a).
Proof. intro s; reflexivity. Qed.

(** A row with a NULL sum. *)
Definition has_null (r : pg_row) : bool :=
  match r with
  | (Some _, Some _, _) => false
  | _ => true
  end.

(** A row the cycle assigns to the locals carries a NULL sum: the DB row
    when SELECT 1 returned, the Airflow row when both earlier queries
    returned. *)
Definition null_read (w : Py.world) : bool :=
  match Py.w_select1 w, Py.w_db_stats w with
  | Returns _, Returns r1 =>
      has_null (Py.row_or_zero r1) ||
      match Py.w_af_stats w with
      | Returns r2 => has_null (Py.row_or_zero r2)
      | Raises _ => false
      end
  | _, _ => false
  end.

(** The session is open, SELECT 1 returns [(1,)] after 50 ms, no session
    has [datname = PG_DB] (as behind a pooler alias), so the DB query
    fetches [(None, None, 0)]; the Airflow query raises. *)
Definition null_db_row_then_raise_world : Py.world :=
  Py.mkWorld true true (Returns (Some [1])) 0 (1 # 20)
             (Returns (Some (None, None, 0))) (Raises DatabaseError).

(** * Proofs *)

(** ** The status trace is non-decreasing *)

Definition status_inv (s : state) : Prop :=
  Sorted Z.le (st_trace s) /\ Forall (fun x => x <= status (st_locals s)) (st_trace s).

Definition keeps_inv {A} (m : M A) : Prop :=
  forall s, status_inv s -> status_inv (snd (m s)).

Lemma sorted_snoc (l : list Z) (v : Z) :
  Sorted Z.le l -> Forall (fun x => x <= v) l -> Sorted Z.le (l ++ [v]).
Proof.
  induction l as [|a l IH]; intros Hs Hf; simpl.
  - repeat constructor.
  - inversion Hs as [|? ? Hl Hhd]; subst. inversion Hf as [|? ? Ha Hf']; subst.
    constructor; [now apply IH|].
    destruct l as [|b l]; simpl; constructor.
    + exact Ha.
    + now inversion Hhd.
Qed.

Lemma ret_keeps {A} (a : A) : keeps_inv (ret a).
Proof. intros s H; exact H. Qed.

Lemma raise_keeps {A} e : keeps_inv (@raise A e).
Proof. intros s H; exact H. Qed.

Lemma bind_keeps {A B} (m : M A) (k : A -> M B) :
  keeps_inv m -> (forall a, keeps_inv (k a)) -> keeps_inv (bind m k).
Proof.
  intros Hm Hk s Hs. unfold bind.
  specialize (Hm s Hs). destruct (m s) as [[a|e] s']; simpl in *; auto.
  now apply Hk.
Qed.

Lemma emit_keeps ev : keeps_inv (emit ev).
Proof. intros s H; exact H. Qed.

Lemma set_gauge_keeps n v : keeps_inv (set_gauge n v).
Proof. intros s H; exact H. Qed.

Lemma get_locals_keeps : keeps_inv get_locals.
Proof. intros s H; exact H. Qed.

Lemma modify_locals_keeps f :
  (forall l, status (f l) = status l) -> keeps_inv (modify_locals f).
Proof. intros Hf s H. unfold status_inv in *; simpl. now rewrite Hf. Qed.

Lemma status_max_keeps k : keeps_inv (status_max k).
Proof.
  intros s [Hs Hf]. unfold status_max, bind, get_locals, assign_status; simpl.
  split; simpl.
  - apply sorted_snoc; [exact Hs|].
    eapply Forall_impl; [|exact Hf]. simpl; intros; lia.
  - apply Forall_app; split.
    + eapply Forall_impl; [|exact Hf]. simpl; intros; lia.
    + constructor; [lia | constructor].
Qed.

Lemma try_except_keeps {A} (b : M A) h :
  keeps_inv b -> (forall e, keeps_inv (h e)) -> keeps_inv (try_except b h).
Proof.
  intros Hb Hh s Hs. unfold try_except.
  specialize (Hb s Hs). destruct (b s) as [[a|e] s']; simpl in *; auto.
  now apply Hh.
Qed.

Lemma try_except_finally_keeps {A} (b : M A) h f :
  keeps_inv b -> (forall e, keeps_inv (h e)) -> keeps_inv f ->
  keeps_inv (try_except_finally b h f).
Proof.
  intros Hb Hh Hfin s Hs. unfold try_except_finally.
  pose proof (try_except_keeps b h Hb Hh s Hs) as H1.
  destruct (try_except b h s) as [r s1]; simpl in *.
  specialize (Hfin s1 H1). destruct (f s1) as [[u|e] s2]; simpl in *; auto.
Qed.

Create HintDb keeps.
#[local] Hint Resolve ret_keeps raise_keeps emit_keeps set_gauge_keeps
  get_locals_keeps status_max_keeps : keeps.

Ltac keeps_step :=
  match goal with
  | |- keeps_inv (bind _ _) => apply bind_keeps; [|intro]
  | |- keeps_inv (try_except_finally _ _ _) => apply try_except_finally_keeps; [| intro |]
  | |- keeps_inv (try_except _ _) => apply try_except_keeps; [| intro]
  | |- keeps_inv (modify_locals _) =>
      apply modify_locals_keeps; intro; unfold with_latency, with_db, with_af;
      repeat match goal with |- context [let '(_, _) := ?p in _] => destruct p end;
      reflexivity
  | |- keeps_inv (if ?b then _ else _) => destruct b
  | |- keeps_inv (match ?x with _ => _ end) => destruct x
  | |- keeps_inv _ => solve [auto with keeps]
  end.

Lemma tcp_check_keeps w : keeps_inv (tcp_check w).
Proof. unfold tcp_check. repeat keeps_step. Qed.

Lemma pg_connect_keeps w : keeps_inv (pg_connect w).
Proof. unfold pg_connect. repeat keeps_step. Qed.

Lemma execute_fetchone_keeps {A} q (o : outcome A) : keeps_inv (execute_fetchone q o).
Proof. unfold execute_fetchone. repeat keeps_step. Qed.

Lemma conn_close_keeps : keeps_inv conn_close.
Proof. unfold conn_close. repeat keeps_step. Qed.

#[local] Hint Resolve tcp_check_keeps pg_connect_keeps execute_fetchone_keeps
  conn_close_keeps : keeps.

Lemma query_block_keeps w : keeps_inv (query_block w).
Proof. unfold query_block. repeat keeps_step. Qed.

Lemma analyse_keeps th : keeps_inv (analyse th).
Proof. unfold analyse. repeat keeps_step. Qed.

#[local] Hint Resolve query_block_keeps analyse_keeps : keeps.

Lemma keeps_after_init (k : unit -> M unit) s :
  (forall a, keeps_inv (k a)) -> st_trace s = [] ->
  status_inv (snd (bind (assign_status 0) k s)).
Proof.
  intros Hk Ht. unfold bind, assign_status; simpl.
  apply Hk. unfold status_inv; simpl. rewrite Ht; simpl.
  split; repeat constructor. simpl; lia.
Qed.

(** ** The cycle after a successful connection *)

Lemma analyse_ok th s : fst (analyse th s) = Ok tt.
Proof.
  unfold analyse, bind, get_locals, set_gauge, status_max, assign_status, skip, ret; simpl.
  repeat match goal with |- context [if ?b then _ else _] => destruct b end; reflexivity.
Qed.


Arguments gauge_set : simpl never.
Arguments analyse : simpl never.
Arguments elapsed_ms : simpl never.
Arguments q_ge : simpl never.
Arguments q_gt : simpl never.

Ltac case_ifs :=
  repeat match goal with
         | |- context [if ?b then _ else _] => destruct b eqn:?
         end.

Ltac monad_simpl :=
  cbv beta iota delta [analyse query_block tcp_check pg_connect execute_fetchone
    conn_close try_except_finally try_except bind ret skip raise emit set_gauge
    get_locals modify_locals assign_status status_max]; simpl.

Lemma analyse_effect th s :
  exists tr,
  analyse th s =
  (Ok tt, mkState (publish th (st_locals s) (st_gauges s))
                  (with_status (analysis_status th (st_locals s)) (st_locals s))
                  (st_log s) tr).
Proof.
  destruct s as [g [st lat dt da di at' aa ai] lg tr]; simpl.
  unfold publish, analysis_status. monad_simpl.
  case_ifs; simpl; eexists; reflexivity.
Qed.

Ltac cycle_simpl :=
  cbv beta iota zeta delta [cycle_status cycle_gauges cycle_log run_cycle scrape_once
    query_block tcp_check pg_connect execute_fetchone
    conn_close try_except_finally try_except bind ret skip raise emit set_gauge
    get_locals modify_locals assign_status status_max
    with_status with_latency with_db with_af row_or_zero
    st_gauges st_locals st_log st_trace status latency_ms db_total db_active
    db_idle_in_tx af_total af_active af_idle_in_tx w_tcp_ok w_connect_ok w_select1
    w_t0 w_t1 w_db_stats w_af_stats negb app fst snd].

Lemma connected_cycle th w g :
  w_tcp_ok w = true -> w_connect_ok w = true ->
  exists s, run_cycle th w g = analyse th s /\
    st_gauges s = gauge_set PG_UP 1 g /\ st_locals s = probe_locals w.
Proof.
  intros Ht Hc. destruct w as [tcp con s1 t0 t1 db af]; simpl in *; subst.
  unfold probe_locals, probe_critical, measured_latency, unfiltered_counts,
    filtered_counts; simpl.
  destruct s1 as [e1|row];
    [|destruct db as [e2|[[[a i] t]|]];
      [|destruct af as [e3|[[[a' i'] t']|]]|destruct af as [e3|[[[a' i'] t']|]]]];
    cycle_simpl; case_ifs; simpl in * |-; try discriminate;
    (eexists; split; [reflexivity|]); split; reflexivity.
Qed.

Lemma connected_cycle_effect th w g :
  w_tcp_ok w = true -> w_connect_ok w = true ->
  fst (run_cycle th w g) = Ok tt /\
  cycle_gauges th w g = publish th (probe_locals w) (gauge_set PG_UP 1 g).
Proof.
  intros Ht Hc. destruct (connected_cycle th w g Ht Hc) as [s [Hr [Hg Hl]]].
  destruct (analyse_effect th s) as [tr Ha].
  unfold cycle_gauges. rewrite Hr, Ha; simpl. rewrite Hg, Hl. split; reflexivity.
Qed.

Lemma gauge_set_same n v g : gauge_set n v g n = v.
Proof. unfold gauge_set. destruct (gauge_name_eq_dec n n); congruence. Qed.

Lemma gauge_set_other n m v g : m <> n -> gauge_set n v g m = g m.
Proof. intro H. unfold gauge_set. destruct (gauge_name_eq_dec m n); congruence. Qed.

Lemma connected_cycle_status th w g :
  w_tcp_ok w = true -> w_connect_ok w = true ->
  cycle_status th w g = inject_Z (analysis_status th (probe_locals w)).
Proof.
  intros Ht Hc. unfold cycle_status.
  rewrite (proj2 (connected_cycle_effect th w g Ht Hc)).
  unfold publish. apply gauge_set_same.
Qed.

Lemma analysis_status_rules th l :
  0 <= status l ->
  analysis_status th l =
  Z.max (status l) (Z.max (latency_rule th (latency_ms l))
                          (Z.max (idle_rule th (db_idle_in_tx l)) (active_rule th (db_active l)))).
Proof.
  intro H. unfold analysis_status, latency_rule, idle_rule, active_rule; cbv zeta.
  case_ifs; lia.
Qed.

Lemma analysis_status_findings th w :
  analysis_status th (probe_locals w) =
  overall_severity (findings th (probe_critical w) (measured_latency w)
                      (row_idle (unfiltered_counts w)) (row_active (unfiltered_counts w))).
Proof.
  unfold probe_locals.
  destruct (unfiltered_counts w) as [[a i] t], (filtered_counts w) as [[a' i'] t'].
  unfold analysis_status, findings, overall_severity; cbv zeta; simpl.
  case_ifs; simpl; lia.
Qed.

(** ** The two early-return paths *)

Lemma tcp_down_cycle th w g :
  w_tcp_ok w = false ->
  exists l tr, run_cycle th w g =
    (Ok tt, mkState (gauge_set PG_STATUS 2 (gauge_set PG_LATENCY_MS (-1) (gauge_set PG_UP 0 g)))
                    l [EvTcpCheck] tr).
Proof.
  intro Ht. destruct w as [tcp con s1 t0 t1 db af]; simpl in Ht; subst.
  cycle_simpl. do 2 eexists; reflexivity.
Qed.

Lemma connect_failed_cycle th w g :
  w_tcp_ok w = true -> w_connect_ok w = false ->
  exists l tr, run_cycle th w g =
    (Ok tt, mkState (gauge_set PG_STATUS 2 (gauge_set PG_LATENCY_MS (-1) (gauge_set PG_UP 0 g)))
                    l [EvTcpCheck; EvConnect] tr).
Proof.
  intros Ht Hc. destruct w as [tcp con s1 t0 t1 db af]; simpl in Ht, Hc; subst.
  cycle_simpl. do 2 eexists; reflexivity.
Qed.

Lemma early_return_gauges g n :
  n <> PG_UP -> n <> PG_LATENCY_MS -> n <> PG_STATUS ->
  gauge_set PG_STATUS 2 (gauge_set PG_LATENCY_MS (-1) (gauge_set PG_UP 0 g)) n = g n.
Proof. intros. rewrite !gauge_set_other by assumption. reflexivity. Qed.

(** ** Claims *)

(** C2: within one cycle the local [status] only ever grows: the sequence
    of values assigned to it (ghost trace) is sorted in non-decreasing
    order and bounded by its final value, for every world and every
    previously published gauges. *)
Theorem status_never_lowered th w g :
  Sorted Z.le (st_trace (snd (run_cycle th w g))) /\
  Forall (fun x => x <= status (st_locals (snd (run_cycle th w g))))
         (st_trace (snd (run_cycle th w g))).
Proof.
  change (status_inv (snd (run_cycle th w g))).
  unfold run_cycle, scrape_once.
  apply keeps_after_init; [intro; repeat keeps_step | reflexivity].
Qed.

(** C4: when the TCP probe fails, the cycle returns normally having set
    only [airflow_pg_up] to 0, the latency to the sentinel -1 and the
    status to 2; every other gauge, in particular the six session counts,
    keeps its previous value, and the only interaction is the TCP probe
    (no connection, no query). *)
Theorem outage_keeps_counts th w g :
  w_tcp_ok w = false ->
  fst (run_cycle th w g) = Ok tt /\
  cycle_gauges th w g PG_UP = 0%Q /\
  cycle_gauges th w g PG_LATENCY_MS = (-1)%Q /\
  cycle_status th w g = 2%Q /\
  (forall n, n <> PG_UP -> n <> PG_LATENCY_MS -> n <> PG_STATUS ->
             cycle_gauges th w g n = g n) /\
  (forall n, In n count_gauges -> cycle_gauges th w g n = g n) /\
  cycle_log th w g = [EvTcpCheck].
Proof.
  intro Ht. unfold cycle_status, cycle_gauges, cycle_log.
  destruct (tcp_down_cycle th w g Ht) as [l [tr ->]]; simpl.
  split; [reflexivity|]. split; [reflexivity|]. split; [reflexivity|].
  split; [reflexivity|]. split; [exact (early_return_gauges g)|].
  split; [|reflexivity].
  intros n Hn. apply early_return_gauges; intro; subst; simpl in Hn; intuition discriminate.
Qed.

Lemma outage_keeps_counts_witness :
  fst (run_cycle default_thresholds unreachable_world earlier_gauges) = Ok tt /\
  cycle_gauges default_thresholds unreachable_world earlier_gauges PG_UP = 0%Q /\
  cycle_gauges default_thresholds unreachable_world earlier_gauges PG_LATENCY_MS = (-1)%Q /\
  cycle_status default_thresholds unreachable_world earlier_gauges = 2%Q /\
  (forall n, n <> PG_UP -> n <> PG_LATENCY_MS -> n <> PG_STATUS ->
     cycle_gauges default_thresholds unreachable_world earlier_gauges n = earlier_gauges n) /\
  (forall n, In n count_gauges ->
     cycle_gauges default_thresholds unreachable_world earlier_gauges n = earlier_gauges n) /\
  cycle_log default_thresholds unreachable_world earlier_gauges = [EvTcpCheck].
Proof. apply outage_keeps_counts; reflexivity. Defined.

(** C6 (counterexample): after an earlier cycle published counts of 7, a
    cycle whose connection attempt fails leaves the unfiltered total at 7:
    the statistics are not published as zero. *)
Lemma connect_failure_keeps_stale_counts :
  cycle_gauges default_thresholds connect_refused_world earlier_gauges PG_DB_TOTAL = 7%Q /\
  ~ (cycle_gauges default_thresholds connect_refused_world earlier_gauges PG_DB_TOTAL == 0)%Q.
Proof. vm_compute. split; [reflexivity | discriminate]. Qed.

(** C6 (amended): when the TCP probe succeeds but [psycopg2.connect]
    raises [OperationalError], the error is caught and the cycle returns
    normally; [airflow_pg_up] is 0, the latency is the sentinel -1, the
    status is 2, every other gauge (the six session counts included) keeps
    its previous value, and no query is executed: the interactions are the
    TCP probe and the connection attempt only. *)
Theorem connect_failure_short_circuits th w g :
  w_tcp_ok w = true -> w_connect_ok w = false ->
  fst (run_cycle th w g) = Ok tt /\
  cycle_gauges th w g PG_UP = 0%Q /\
  cycle_gauges th w g PG_LATENCY_MS = (-1)%Q /\
  cycle_status th w g = 2%Q /\
  (forall n, n <> PG_UP -> n <> PG_LATENCY_MS -> n <> PG_STATUS ->
             cycle_gauges th w g n = g n) /\
  cycle_log th w g = [EvTcpCheck; EvConnect].
Proof.
  intros Ht Hc. unfold cycle_status, cycle_gauges, cycle_log.
  destruct (connect_failed_cycle th w g Ht Hc) as [l [tr ->]]; simpl.
  repeat split. exact (early_return_gauges g).
Qed.

Lemma connect_failure_short_circuits_witness :
  fst (run_cycle default_thresholds connect_refused_world earlier_gauges) = Ok tt /\
  cycle_gauges default_thresholds connect_refused_world earlier_gauges PG_UP = 0%Q /\
  cycle_gauges default_thresholds connect_refused_world earlier_gauges PG_LATENCY_MS = (-1)%Q /\
  cycle_status default_thresholds connect_refused_world earlier_gauges = 2%Q /\
  (forall n, n <> PG_UP -> n <> PG_LATENCY_MS -> n <> PG_STATUS ->
     cycle_gauges default_thresholds connect_refused_world earlier_gauges n = earlier_gauges n) /\
  cycle_log default_thresholds connect_refused_world earlier_gauges = [EvTcpCheck; EvConnect].
Proof. apply connect_failure_short_circuits; reflexivity. Defined.

Lemma q_ge_inject a b : q_ge (inject_Z a) (inject_Z b) = (b <=? a).
Proof. unfold q_ge, Qle_bool; simpl. now rewrite !Z.mul_1_r. Qed.

Lemma q_ge_inject_0 a : q_ge (inject_Z a) 0 = (0 <=? a).
Proof. exact (q_ge_inject a 0). Qed.

Lemma q_gt_inject a b : q_gt (inject_Z a) (inject_Z b) = (b <? a).
Proof.
  unfold q_gt, Qle_bool; simpl. rewrite !Z.mul_1_r.
  destruct (Z.leb_spec a b), (Z.ltb_spec b a); simpl; auto; lia.
Qed.

(** C1: the three threshold rules compare strictly. A latency equal to a
    (non-negative) latency threshold, an idle-in-transaction count equal to
    its threshold and an active count equal to its threshold each
    contribute 0; one unit more contributes WARNING (1). Every cycle that
    reaches the analysis publishes exactly the maximum of the probe
    outcome and these contributions. *)
Theorem thresholds_are_strict th w g :
  0 <= WARN_LATENCY_MS th ->
  w_tcp_ok w = true -> w_connect_ok w = true ->
  latency_rule th (inject_Z (WARN_LATENCY_MS th)) = 0 /\
  latency_rule th (inject_Z (WARN_LATENCY_MS th + 1)) = 1 /\
  idle_rule th (WARN_IDLE_IN_TX th) = 0 /\
  idle_rule th (WARN_IDLE_IN_TX th + 1) = 1 /\
  active_rule th (WARN_ACTIVE_CONN th) = 0 /\
  active_rule th (WARN_ACTIVE_CONN th + 1) = 1 /\
  cycle_status th w g =
  inject_Z (Z.max (if probe_critical w then 2 else 0)
              (Z.max (latency_rule th (measured_latency w))
                 (Z.max (idle_rule th (row_idle (unfiltered_counts w)))
                        (active_rule th (row_active (unfiltered_counts w)))))).
Proof.
  intros Hl Ht Hc.
  unfold latency_rule, idle_rule, active_rule.
  rewrite !q_ge_inject_0, !q_gt_inject.
  repeat split;
    try (repeat match goal with |- context [if ?b then _ else _] => destruct b eqn:? end;
         rewrite ?Z.leb_le, ?Z.leb_gt, ?Z.ltb_lt, ?Z.ltb_ge in *; lia).
  rewrite (connected_cycle_status th w g Ht Hc), analysis_status_rules.
  - unfold probe_locals, latency_rule, idle_rule, active_rule, row_idle, row_active.
    destruct (unfiltered_counts w) as [[a i] t], (filtered_counts w) as [[a' i'] t'].
    reflexivity.
  - unfold probe_locals.
    destruct (unfiltered_counts w) as [[a i] t], (filtered_counts w) as [[a' i'] t'].
    simpl. destruct (probe_critical w); lia.
Qed.

Lemma thresholds_are_strict_witness :
  let th := default_thresholds in
  let w := healthy_world in
  let g := earlier_gauges in
  latency_rule th (inject_Z (WARN_LATENCY_MS th)) = 0 /\
  latency_rule th (inject_Z (WARN_LATENCY_MS th + 1)) = 1 /\
  idle_rule th (WARN_IDLE_IN_TX th) = 0 /\
  idle_rule th (WARN_IDLE_IN_TX th + 1) = 1 /\
  active_rule th (WARN_ACTIVE_CONN th) = 0 /\
  active_rule th (WARN_ACTIVE_CONN th + 1) = 1 /\
  cycle_status th w g =
  inject_Z (Z.max (if probe_critical w then 2 else 0)
              (Z.max (latency_rule th (measured_latency w))
                 (Z.max (idle_rule th (row_idle (unfiltered_counts w)))
                        (active_rule th (row_active (unfiltered_counts w)))))).
Proof.
  intros th w g. apply thresholds_are_strict; [unfold th; simpl; lia | reflexivity | reflexivity].
Defined.

(** C3: in every cycle that reaches the analysis, the published severity is
    the maximum over the severities of the triggered findings (0 when none
    triggers). In particular, when SELECT 1 returns [(1,)], neither
    statistics query raises, the measured latency lies between 0 and its
    threshold and the unfiltered idle-in-transaction and active counts are
    at most their thresholds, the published severity is 0. *)
Theorem severity_is_max_of_findings th w g :
  w_tcp_ok w = true -> w_connect_ok w = true ->
  cycle_status th w g =
    inject_Z (overall_severity
                (findings th (probe_critical w) (measured_latency w)
                   (row_idle (unfiltered_counts w)) (row_active (unfiltered_counts w)))) /\
  (w_select1 w = Returns (Some [1]) ->
   is_raised (w_db_stats w) = false -> is_raised (w_af_stats w) = false ->
   (0 <= measured_latency w <= inject_Z (WARN_LATENCY_MS th))%Q ->
   row_idle (unfiltered_counts w) <= WARN_IDLE_IN_TX th ->
   row_active (unfiltered_counts w) <= WARN_ACTIVE_CONN th ->
   cycle_status th w g = 0%Q).
Proof.
  intros Ht Hc.
  assert (Hs : cycle_status th w g =
    inject_Z (overall_severity
                (findings th (probe_critical w) (measured_latency w)
                   (row_idle (unfiltered_counts w)) (row_active (unfiltered_counts w))))).
  { rewrite (connected_cycle_status th w g Ht Hc). f_equal. apply analysis_status_findings. }
  split; [exact Hs|].
  intros H1 Hdb Haf [Hl0 Hl] Hi Ha. rewrite Hs.
  assert (Hcrit : probe_critical w = false).
  { unfold probe_critical. rewrite H1, Hdb, Haf. reflexivity. }
  rewrite Hcrit. unfold findings, q_ge, q_gt.
  rewrite (proj2 (Qle_bool_iff _ _) Hl0), (proj2 (Qle_bool_iff _ _) Hl).
  destruct (Z.ltb_spec (WARN_IDLE_IN_TX th) (row_idle (unfiltered_counts w))); [lia|].
  destruct (Z.ltb_spec (WARN_ACTIVE_CONN th) (row_active (unfiltered_counts w))); [lia|].
  reflexivity.
Qed.

Lemma severity_is_max_of_findings_witness :
  let th := default_thresholds in
  let w := healthy_world in
  let g := earlier_gauges in
  cycle_status th w g =
    inject_Z (overall_severity
                (findings th (probe_critical w) (measured_latency w)
                   (row_idle (unfiltered_counts w)) (row_active (unfiltered_counts w)))) /\
  cycle_status th w g = 0%Q.
Proof.
  intros th w g. split.
  - exact (proj1 (severity_is_max_of_findings th w g eq_refl eq_refl)).
  - apply (proj2 (severity_is_max_of_findings th w g eq_refl eq_refl));
      try reflexivity; vm_compute; try split; discriminate.
Defined.

Lemma query_raised_critical w : query_raised w = true -> probe_critical w = true.
Proof.
  unfold query_raised, probe_critical. intro H.
  destruct (w_select1 w), (w_db_stats w); simpl in *; try reflexivity;
    rewrite ?H, ?orb_true_r; reflexivity.
Qed.

Ltac gauge_lookup :=
  unfold publish; cbv [gauge_set]; simpl.

(** Rows without NULL sums (those of [world]; see [nonnull_cycle_refines]):
    when the session is open and SELECT 1 or one of the statistics
    queries raises, the exception is caught and the cycle returns normally;
    the status is CRITICAL (2), [airflow_pg_up] is 1, and all gauges are
    published from the partial data: the latency if it was measured (else
    -1), the count triples read before the exception, zeros for those never
    read. When SELECT 1 itself raises, latency is -1 and all six counts 0. *)
Theorem query_exception_partial_data th w g :
  w_tcp_ok w = true -> w_connect_ok w = true -> query_raised w = true ->
  fst (run_cycle th w g) = Ok tt /\
  cycle_status th w g = 2%Q /\
  cycle_gauges th w g PG_UP = 1%Q /\
  cycle_gauges th w g PG_LATENCY_MS =
    (if q_ge (measured_latency w) 0 then measured_latency w else (-1)%Q) /\
  cycle_gauges th w g PG_DB_ACTIVE = inject_Z (row_active (unfiltered_counts w)) /\
  cycle_gauges th w g PG_DB_IDLE_IN_TX = inject_Z (row_idle (unfiltered_counts w)) /\
  cycle_gauges th w g PG_DB_TOTAL = inject_Z (row_total (unfiltered_counts w)) /\
  cycle_gauges th w g PG_AF_ACTIVE = inject_Z (row_active (filtered_counts w)) /\
  cycle_gauges th w g PG_AF_IDLE_IN_TX = inject_Z (row_idle (filtered_counts w)) /\
  cycle_gauges th w g PG_AF_TOTAL = inject_Z (row_total (filtered_counts w)) /\
  (is_raised (w_select1 w) = true ->
   cycle_gauges th w g PG_LATENCY_MS = (-1)%Q /\
   forall n, In n count_gauges -> cycle_gauges th w g n = 0%Q).
Proof.
  intros Ht Hc Hq.
  destruct (connected_cycle_effect th w g Ht Hc) as [Hok Hg].
  pose proof (query_raised_critical w Hq) as Hcrit.
  assert (Hst : cycle_status th w g = 2%Q).
  { rewrite (connected_cycle_status th w g Ht Hc), analysis_status_rules.
    - unfold probe_locals, latency_rule, idle_rule, active_rule.
      destruct (unfiltered_counts w) as [[a i] t], (filtered_counts w) as [[a' i'] t'].
      simpl. rewrite Hcrit. case_ifs; reflexivity.
    - unfold probe_locals.
      destruct (unfiltered_counts w) as [[a i] t], (filtered_counts w) as [[a' i'] t'].
      simpl. rewrite Hcrit. lia. }
  assert (Hsel : is_raised (w_select1 w) = true ->
                 measured_latency w = (-1)%Q /\ unfiltered_counts w = (0, 0, 0) /\
                 filtered_counts w = (0, 0, 0)).
  { unfold is_raised, measured_latency, unfiltered_counts, filtered_counts.
    destruct (w_select1 w); [|discriminate]. auto. }
  unfold cycle_gauges in *. rewrite Hg.
  unfold row_active, row_idle, row_total, probe_locals.
  split; [exact Hok|]. split; [exact Hst|].
  destruct (unfiltered_counts w) as [[a i] t] eqn:Hu,
           (filtered_counts w) as [[a' i'] t'] eqn:Hf.
  gauge_lookup. repeat split;
    match goal with
    | Hr : is_raised (w_select1 w) = true |- _ => destruct (Hsel Hr) as [Hm [Hu' Hf']]
    end.
  - rewrite Hm. reflexivity.
  - injection Hu' as -> -> ->. injection Hf' as -> -> ->.
    intros n Hn. simpl in Hn. intuition subst; reflexivity.
Qed.

Lemma query_exception_partial_data_witness :
  let th := default_thresholds in
  let w := liveness_raises_world in
  let g := earlier_gauges in
  fst (run_cycle th w g) = Ok tt /\
  cycle_status th w g = 2%Q /\
  cycle_gauges th w g PG_UP = 1%Q /\
  cycle_gauges th w g PG_LATENCY_MS =
    (if q_ge (measured_latency w) 0 then measured_latency w else (-1)%Q) /\
  cycle_gauges th w g PG_DB_ACTIVE = inject_Z (row_active (unfiltered_counts w)) /\
  cycle_gauges th w g PG_DB_IDLE_IN_TX = inject_Z (row_idle (unfiltered_counts w)) /\
  cycle_gauges th w g PG_DB_TOTAL = inject_Z (row_total (unfiltered_counts w)) /\
  cycle_gauges th w g PG_AF_ACTIVE = inject_Z (row_active (filtered_counts w)) /\
  cycle_gauges th w g PG_AF_IDLE_IN_TX = inject_Z (row_idle (filtered_counts w)) /\
  cycle_gauges th w g PG_AF_TOTAL = inject_Z (row_total (filtered_counts w)) /\
  (is_raised (w_select1 w) = true ->
   cycle_gauges th w g PG_LATENCY_MS = (-1)%Q /\
   forall n, In n count_gauges -> cycle_gauges th w g n = 0%Q).
Proof. intros th w g. apply query_exception_partial_data; reflexivity. Defined.

Lemma run_cycle_returns th w g : fst (run_cycle th w g) = Ok tt.
Proof.
  destruct (w_tcp_ok w) eqn:Ht.
  - destruct (w_connect_ok w) eqn:Hc.
    + exact (proj1 (connected_cycle_effect th w g Ht Hc)).
    + destruct (connect_failed_cycle th w g Ht Hc) as [l [tr ->]]. reflexivity.
  - destruct (tcp_down_cycle th w g Ht) as [l [tr ->]]. reflexivity.
Qed.

(** C7: a statistics query that returns no row behaves exactly like one
    returning the row (0, 0, 0): the whole cycle (result, gauges, locals,
    interactions) is the same, and no error escapes the cycle. *)
Theorem missing_row_is_zero_row th w g :
  (w_db_stats w = Returns None ->
   run_cycle th w g = run_cycle th (with_db_stats w (Returns (Some (0, 0, 0)))) g) /\
  (w_af_stats w = Returns None ->
   run_cycle th w g = run_cycle th (with_af_stats w (Returns (Some (0, 0, 0)))) g) /\
  fst (run_cycle th w g) = Ok tt.
Proof.
  split; [|split; [|apply run_cycle_returns]];
    intro H; destruct w as [tcp con s1 t0 t1 db af]; simpl in H; subst;
    reflexivity.
Qed.

Lemma missing_row_is_zero_row_witness :
  run_cycle default_thresholds (with_db_stats healthy_world (Returns None)) earlier_gauges =
  run_cycle default_thresholds
    (with_db_stats (with_db_stats healthy_world (Returns None)) (Returns (Some (0, 0, 0))))
    earlier_gauges.
Proof.
  exact (proj1 (missing_row_is_zero_row default_thresholds
                  (with_db_stats healthy_world (Returns None)) earlier_gauges) eq_refl).
Defined.

(** C9: the published status is a function of the classifier's inputs
    only: two cycles (under the same thresholds, from any previously
    published gauges) whose probes end alike (TCP, connection, the
    CRITICAL probe outcome: a wrong SELECT 1 row or a raised query), with
    the same measured latency and the same unfiltered idle-in-transaction
    and active counts, publish the same status. The threshold analysis
    itself depends only on the incoming status, the latency and those two
    counts. *)
Theorem status_depends_only_on_inputs th w1 w2 g1 g2 :
  w_tcp_ok w1 = w_tcp_ok w2 -> w_connect_ok w1 = w_connect_ok w2 ->
  probe_critical w1 = probe_critical w2 ->
  measured_latency w1 = measured_latency w2 ->
  row_idle (unfiltered_counts w1) = row_idle (unfiltered_counts w2) ->
  row_active (unfiltered_counts w1) = row_active (unfiltered_counts w2) ->
  cycle_status th w1 g1 = cycle_status th w2 g2 /\
  (forall l1 l2, status l1 = status l2 -> latency_ms l1 = latency_ms l2 ->
     db_idle_in_tx l1 = db_idle_in_tx l2 -> db_active l1 = db_active l2 ->
     analysis_status th l1 = analysis_status th l2).
Proof.
  intros Ht Hc Hp Hl Hi Ha. split.
  - destruct (w_tcp_ok w1) eqn:Ht1; [destruct (w_connect_ok w1) eqn:Hc1|].
    + rewrite (connected_cycle_status th w1 g1 Ht1 Hc1),
              (connected_cycle_status th w2 g2 (eq_sym Ht) (eq_sym Hc)),
              !analysis_status_findings, Hp, Hl, Hi, Ha.
      reflexivity.
    + unfold cycle_status, cycle_gauges.
      destruct (connect_failed_cycle th w1 g1 Ht1 Hc1) as [l [tr ->]].
      destruct (connect_failed_cycle th w2 g2 (eq_sym Ht) (eq_sym Hc)) as [l' [tr' ->]].
      reflexivity.
    + unfold cycle_status, cycle_gauges.
      destruct (tcp_down_cycle th w1 g1 Ht1) as [l [tr ->]].
      destruct (tcp_down_cycle th w2 g2 (eq_sym Ht)) as [l' [tr' ->]].
      reflexivity.
  - intros l1 l2 Hs Hlat Hid Hac. unfold analysis_status.
    rewrite Hs, Hlat, Hid, Hac. reflexivity.
Qed.

Lemma status_depends_only_on_inputs_witness :
  cycle_status default_thresholds healthy_world earlier_gauges =
  cycle_status default_thresholds
    (with_af_stats (with_db_stats healthy_world (Returns (Some (2, 0, 42))))
                   (Returns (Some (9, 9, 9))))
    (fun _ => 0%Q).
Proof.
  exact (proj1 (status_depends_only_on_inputs default_thresholds healthy_world
                  (with_af_stats (with_db_stats healthy_world (Returns (Some (2, 0, 42))))
                                 (Returns (Some (9, 9, 9))))
                  earlier_gauges (fun _ => 0%Q)
                  eq_refl eq_refl eq_refl eq_refl eq_refl eq_refl)).
Defined.

(** ** Start-up configuration *)

Lemma env_nonrequired e n d c :
  d <> PyNone -> exists v, env e n d false c = Ok v.
Proof.
  intro Hd. unfold env, os_getenv.
  destruct (getenv n e) as [s|].
  - destruct (py_cast c (PyStr s)); eauto.
  - destruct d; [congruence| |]; destruct (py_cast c _); eauto.
Qed.

Lemma env_required_present e n s c :
  getenv n e = Some s -> exists v, env e n PyNone true c = Ok v.
Proof.
  intro H. unfold env, os_getenv. rewrite H.
  destruct (py_cast c (PyStr s)); eauto.
Qed.

Ltac env_step :=
  match goal with
  | |- context [rbind (env ?e ?n ?d false ?c) _] =>
      let v := fresh "v" in let E := fresh "E" in
      destruct (env_nonrequired e n d c ltac:(discriminate)) as [v E];
      rewrite E; cbn [rbind]
  end.

Lemma env_host_absent e :
  getenv "AF_PG_HOST"%string e = None ->
  env e "AF_PG_HOST"%string (PyStr "127.0.0.1"%string) false CastStr =
  Ok (PyStr "127.0.0.1"%string).
Proof. intro H. unfold env, os_getenv. rewrite H. reflexivity. Qed.

(** C8 (counterexample): with only the password set, start-up succeeds and
    the host is the default 127.0.0.1; no error is raised for the missing
    AF_PG_HOST. *)
Lemma missing_host_does_not_abort :
  exists cfg, load_config [("AF_PG_PASSWORD", "secret")]%string = Ok cfg /\
              PG_HOST cfg = PyStr "127.0.0.1"%string.
Proof. eexists. split; reflexivity. Qed.

(** C8 (amended): AF_PG_HOST is optional. When it is absent, start-up
    proceeds with host 127.0.0.1 as long as AF_PG_PASSWORD is set; the only
    start-up abort is the [RuntimeError] for a missing password. *)
Theorem host_defaults_to_localhost e :
  getenv "AF_PG_HOST"%string e = None ->
  (getenv "AF_PG_PASSWORD"%string e <> None ->
   exists cfg, load_config e = Ok cfg /\ PG_HOST cfg = PyStr "127.0.0.1"%string) /\
  (getenv "AF_PG_PASSWORD"%string e = None ->
   load_config e = Err (RuntimeError "Env var AF_PG_PASSWORD is required"%string)).
Proof.
  intro Hh. unfold load_config. rewrite (env_host_absent e Hh). cbn [rbind].
  do 3 env_step. split.
  - intro Hp. destruct (getenv "AF_PG_PASSWORD"%string e) as [s|] eqn:Hs; [|congruence].
    destruct (env_required_present e _ s CastStr Hs) as [pw Epw]. rewrite Epw. cbn [rbind].
    do 6 env_step. eexists; split; reflexivity.
  - intro Hp. unfold env at 1, os_getenv. rewrite Hp. reflexivity.
Qed.

Lemma host_defaults_to_localhost_witness :
  exists cfg, load_config [("AF_PG_PASSWORD", "secret")]%string = Ok cfg /\
              PG_HOST cfg = PyStr "127.0.0.1"%string.
Proof.
  apply (proj1 (host_defaults_to_localhost [("AF_PG_PASSWORD", "secret")]%string eq_refl)).
  discriminate.
Defined.

(** C10: [env] swallows a failed cast and returns the default as given,
    uncast. Setting AF_PG_PORT to text that [int()] rejects makes the
    configured port the string "5432", and start-up does not abort. *)
Theorem env_cast_failure_returns_default :
  (forall e n d req c s err,
     getenv n e = Some s -> py_cast c (PyStr s) = Err err -> env e n d req c = Ok d) /\
  (forall e s,
     getenv "AF_PG_PORT"%string e = Some s -> py_int_of_string s = None ->
     getenv "AF_PG_PASSWORD"%string e <> None ->
     exists cfg, load_config e = Ok cfg /\ PG_PORT cfg = PyStr "5432"%string).
Proof.
  split.
  - intros e n d req c s err Hs Hc. unfold env, os_getenv. rewrite Hs, Hc. reflexivity.
  - intros e s Hs Hi Hp. unfold load_config.
    env_step.
    assert (Eport : env e "AF_PG_PORT"%string (PyStr "5432"%string) false CastInt =
                    Ok (PyStr "5432"%string)).
    { unfold env, os_getenv. rewrite Hs. simpl. rewrite Hi. reflexivity. }
    rewrite Eport. cbn [rbind].
    do 2 env_step.
    destruct (getenv "AF_PG_PASSWORD"%string e) as [p|] eqn:Hpw; [|congruence].
    destruct (env_required_present e _ p CastStr Hpw) as [pw Epw]. rewrite Epw. cbn [rbind].
    do 6 env_step. eexists; split; reflexivity.
Qed.

Lemma env_cast_failure_returns_default_witness :
  env [("AF_PG_PORT", "abc")]%string "AF_PG_PORT"%string (PyStr "5432"%string) false CastInt
    = Ok (PyStr "5432"%string) /\
  exists cfg, load_config [("AF_PG_PORT", "abc"); ("AF_PG_PASSWORD", "secret")]%string = Ok cfg /\
              PG_PORT cfg = PyStr "5432"%string.
Proof.
  split.
  - apply (proj1 env_cast_failure_returns_default) with (s := "abc"%string) (err := ValueError);
      reflexivity.
  - apply (proj2 env_cast_failure_returns_default) with (s := "abc"%string);
      [reflexivity | reflexivity | discriminate].
Defined.

(** ** Further properties of the cycle, the loop and the configuration *)

Lemma connected_cycle_pre_log th w g :
  w_tcp_ok w = true -> w_connect_ok w = true ->
  exists s, run_cycle th w g = analyse th s /\
    st_log s = [EvTcpCheck; EvConnect] ++ map EvExecute (executed_queries w) ++ [EvClose].
Proof.
  intros Ht Hc. destruct w as [tcp con s1 t0 t1 db af]; simpl in *; subst.
  unfold executed_queries; simpl.
  destruct s1 as [e1|row];
    [|destruct db as [e2|[[[a i] t]|]];
      [|destruct af as [e3|[[[a' i'] t']|]]|destruct af as [e3|[[[a' i'] t']|]]]];
    cycle_simpl; case_ifs; (eexists; split; [reflexivity|]); reflexivity.
Qed.

Lemma connected_cycle_log th w g :
  w_tcp_ok w = true -> w_connect_ok w = true ->
  cycle_log th w g = [EvTcpCheck; EvConnect] ++ map EvExecute (executed_queries w) ++ [EvClose].
Proof.
  intros Ht Hc. destruct (connected_cycle_pre_log th w g Ht Hc) as [s [Hr Hl]].
  destruct (analyse_effect th s) as [tr Ha].
  unfold cycle_log. rewrite Hr, Ha. exact Hl.
Qed.

Lemma cycle_gauges_cases th w g :
  (connected w = false /\ cycle_gauges th w g = degraded g) \/
  (connected w = true /\
   cycle_gauges th w g = publish th (probe_locals w) (gauge_set PG_UP 1 g)).
Proof.
  unfold connected, cycle_gauges.
  destruct (w_tcp_ok w) eqn:Ht; [destruct (w_connect_ok w) eqn:Hc|].
  - right. split; [reflexivity|]. exact (proj2 (connected_cycle_effect th w g Ht Hc)).
  - left. split; [reflexivity|].
    destruct (connect_failed_cycle th w g Ht Hc) as [l [tr ->]]. reflexivity.
  - left. split; [reflexivity|].
    destruct (tcp_down_cycle th w g Ht) as [l [tr ->]]. reflexivity.
Qed.

Lemma probe_locals_status w : status (probe_locals w) = if probe_critical w then 2 else 0.
Proof.
  unfold probe_locals.
  destruct (unfiltered_counts w) as [[a i] t], (filtered_counts w) as [[a' i'] t']. reflexivity.
Qed.

Lemma probe_locals_latency w : latency_ms (probe_locals w) = measured_latency w.
Proof.
  unfold probe_locals.
  destruct (unfiltered_counts w) as [[a i] t], (filtered_counts w) as [[a' i'] t']. reflexivity.
Qed.

Lemma analysis_status_probe th w :
  analysis_status th (probe_locals w) =
  Z.max (if probe_critical w then 2 else 0)
    (Z.max (latency_rule th (measured_latency w))
       (Z.max (idle_rule th (db_idle_in_tx (probe_locals w)))
              (active_rule th (db_active (probe_locals w))))).
Proof.
  rewrite analysis_status_rules, probe_locals_status, probe_locals_latency; [reflexivity|].
  rewrite probe_locals_status. destruct (probe_critical w); lia.
Qed.

Lemma analysis_status_range th w :
  0 <= analysis_status th (probe_locals w) <= 2.
Proof.
  rewrite analysis_status_probe. unfold latency_rule, idle_rule, active_rule.
  case_ifs; lia.
Qed.

(** Every cycle publishes a status among OK (0), WARNING (1) and
    CRITICAL (2). *)
Theorem cycle_status_range th w g :
  cycle_status th w g = 0%Q \/ cycle_status th w g = 1%Q \/ cycle_status th w g = 2%Q.
Proof.
  unfold cycle_status.
  destruct (cycle_gauges_cases th w g) as [[_ ->] | [_ ->]].
  - right; right. reflexivity.
  - unfold publish. rewrite gauge_set_same.
    pose proof (analysis_status_range th w) as H.
    destruct (analysis_status th (probe_locals w)) as [|[p|p|]|p] eqn:E;
      try (exfalso; lia); auto.
    destruct p; try (exfalso; lia); auto.
Qed.

(** [airflow_pg_up] is 1 after a cycle that got past the TCP probe and the
    connection, and 0 after any other cycle. *)
Theorem cycle_up_flag th w g :
  cycle_gauges th w g PG_UP = if connected w then 1%Q else 0%Q.
Proof.
  destruct (cycle_gauges_cases th w g) as [[Hc ->] | [Hc ->]]; rewrite Hc.
  - reflexivity.
  - gauge_lookup. reflexivity.
Qed.







(** The two early returns (TCP probe failed, session could not be opened)
    leave the same gauges: any two cycles that do not connect publish
    identical values from the same starting gauges. *)
Theorem early_returns_publish_alike th w w' g :
  connected w = false -> connected w' = false ->
  cycle_gauges th w g = cycle_gauges th w' g.
Proof.
  intros H H'.
  destruct (cycle_gauges_cases th w g) as [[_ ->] | [Hc _]]; [|congruence].
  destruct (cycle_gauges_cases th w' g) as [[_ ->] | [Hc _]]; [reflexivity|congruence].
Qed.

Lemma early_returns_publish_alike_witness :
  cycle_gauges default_thresholds unreachable_world earlier_gauges =
  cycle_gauges default_thresholds connect_refused_world earlier_gauges.
Proof. apply early_returns_publish_alike; reflexivity. Defined.

(** A cycle that opened the session executes SELECT 1, then the unfiltered
    statistics query, then the Airflow/Celery one, each only if the
    previous one returned, and always closes the connection last, whatever
    was raised. *)
Theorem connected_cycle_closes th w g :
  connected w = true ->
  cycle_log th w g =
  [EvTcpCheck; EvConnect] ++ map EvExecute (executed_queries w) ++ [EvClose].
Proof.
  unfold connected. intro H. apply andb_true_iff in H as [Ht Hc].
  exact (connected_cycle_log th w g Ht Hc).
Qed.

Lemma connected_cycle_closes_witness :
  cycle_log default_thresholds liveness_raises_world earlier_gauges =
  [EvTcpCheck; EvConnect; EvExecute SELECT_1; EvClose].
Proof. apply connected_cycle_closes. reflexivity. Defined.

(** ** The daemon loop *)

Lemma main_loop_app th ws ws' g :
  main_loop th (ws ++ ws') g = main_loop th ws' (main_loop th ws g).
Proof. revert g. induction ws as [|w ws IH]; intro g; simpl; auto. Qed.

Lemma disconnected_cycle_keeps_counts th w g n :
  connected w = false -> In n count_gauges -> cycle_gauges th w g n = g n.
Proof.
  intros Hc Hn.
  destruct (cycle_gauges_cases th w g) as [[_ ->] | [Hc' _]]; [|congruence].
  unfold degraded. rewrite !gauge_set_other; [reflexivity | ..];
    intro; subst; simpl in Hn; intuition discriminate.
Qed.

Lemma disconnected_loop_keeps_counts th ws g n :
  Forall (fun w => connected w = false) ws -> In n count_gauges ->
  main_loop th ws g n = g n.
Proof.
  revert g. induction ws as [|w ws IH]; intros g Hws Hn; simpl; [reflexivity|].
  inversion Hws; subst. rewrite IH by assumption.
  apply disconnected_cycle_keeps_counts; assumption.
Qed.

(** In the daemon loop the six session-count gauges hold the values
    published by the last cycle that connected: any run of later cycles
    that fail to connect leaves them as that cycle wrote them. *)
Theorem loop_counts_from_last_connected th ws1 w ws2 g n :
  connected w = true ->
  Forall (fun w' => connected w' = false) ws2 ->
  In n count_gauges ->
  main_loop th (ws1 ++ w :: ws2) g n = cycle_gauges th w (main_loop th ws1 g) n.
Proof.
  intros Hw Hws Hn. rewrite main_loop_app. simpl.
  apply disconnected_loop_keeps_counts; assumption.
Qed.

Lemma loop_counts_from_last_connected_witness :
  main_loop default_thresholds ([] ++ healthy_world :: [unreachable_world; connect_refused_world])
    earlier_gauges PG_DB_TOTAL =
  cycle_gauges default_thresholds healthy_world (main_loop default_thresholds [] earlier_gauges)
    PG_DB_TOTAL.
Proof.
  apply loop_counts_from_last_connected;
    [reflexivity | repeat constructor | simpl; auto].
Defined.




(** ** Thresholds *)

Lemma q_gt_antitone lat b b' :
  b <= b' -> q_gt lat (inject_Z b') = true -> q_gt lat (inject_Z b) = true.
Proof.
  unfold q_gt. intros Hb H.
  apply negb_true_iff in H. apply negb_true_iff.
  destruct (Qle_bool lat (inject_Z b)) eqn:E; [|reflexivity].
  apply Qle_bool_iff in E. rewrite Zle_Qle in Hb.
  assert (E' : Qle_bool lat (inject_Z b') = true) by (apply Qle_bool_iff; eapply Qle_trans; eauto).
  congruence.
Qed.

(** Raising any of the three warning thresholds never raises the status a
    cycle publishes. *)
Theorem higher_thresholds_never_raise_status th th' w g :
  WARN_IDLE_IN_TX th <= WARN_IDLE_IN_TX th' ->
  WARN_ACTIVE_CONN th <= WARN_ACTIVE_CONN th' ->
  WARN_LATENCY_MS th <= WARN_LATENCY_MS th' ->
  (cycle_status th' w g <= cycle_status th w g)%Q.
Proof.
  intros Hi Ha Hl. unfold cycle_status.
  destruct (cycle_gauges_cases th w g) as [[Hc ->] | [Hc ->]];
  destruct (cycle_gauges_cases th' w g) as [[Hc' ->] | [Hc' ->]]; try congruence.
  - apply Qle_refl.
  - unfold publish. rewrite !gauge_set_same, <- Zle_Qle, !analysis_status_probe.
    assert (latency_rule th' (measured_latency w) <= latency_rule th (measured_latency w)).
    { unfold latency_rule. destruct (q_ge (measured_latency w) 0); [|lia].
      destruct (q_gt (measured_latency w) (inject_Z (WARN_LATENCY_MS th'))) eqn:E.
      - rewrite (q_gt_antitone _ _ _ Hl E). lia.
      - destruct (q_gt _ (inject_Z (WARN_LATENCY_MS th))); lia. }
    assert (idle_rule th' (db_idle_in_tx (probe_locals w)) <=
            idle_rule th (db_idle_in_tx (probe_locals w))).
    { unfold idle_rule.
      destruct (Z.ltb_spec (WARN_IDLE_IN_TX th') (db_idle_in_tx (probe_locals w))),
               (Z.ltb_spec (WARN_IDLE_IN_TX th) (db_idle_in_tx (probe_locals w))); lia. }
    assert (active_rule th' (db_active (probe_locals w)) <=
            active_rule th (db_active (probe_locals w))).
    { unfold active_rule.
      destruct (Z.ltb_spec (WARN_ACTIVE_CONN th') (db_active (probe_locals w))),
               (Z.ltb_spec (WARN_ACTIVE_CONN th) (db_active (probe_locals w))); lia. }
    lia.
Qed.

Lemma higher_thresholds_never_raise_status_witness :
  (cycle_status (mkThresholds 10 100 1000) healthy_world earlier_gauges <=
   cycle_status default_thresholds healthy_world earlier_gauges)%Q.
Proof. apply higher_thresholds_never_raise_status; simpl; lia. Defined.

(** ** [env] and the start-up settings *)

(** The only error [env] ever raises is the [RuntimeError] for a required
    variable that is unset and has no default; a failed cast never
    escapes. *)
Theorem env_error_only_missing_required e n d req c err :
  env e n d req c = Err err ->
  req = true /\ getenv n e = None /\ d = PyNone /\
  err = RuntimeError ("Env var " ++ n ++ " is required")%string.
Proof.
  unfold env, os_getenv. destruct (getenv n e) as [s|].
  - destruct (py_cast c (PyStr s)); discriminate.
  - destruct d as [|s|z].
    + destruct req; [|discriminate]. intro H; injection H as <-. auto.
    + destruct (py_cast c (PyStr s)); discriminate.
    + destruct (py_cast c (PyInt z)); discriminate.
Qed.

Lemma env_error_only_missing_required_witness :
  true = true /\ getenv "AF_PG_PASSWORD"%string [] = None /\ PyNone = PyNone /\
  RuntimeError "Env var AF_PG_PASSWORD is required"%string =
  RuntimeError ("Env var " ++ "AF_PG_PASSWORD" ++ " is required")%string.
Proof.
  apply (env_error_only_missing_required [] "AF_PG_PASSWORD"%string PyNone true CastStr).
  reflexivity.
Defined.

Ltac config_steps :=
  repeat match goal with
         | |- context [rbind (env ?e ?n ?d ?r ?c) _] =>
             let E := fresh "E" in destruct (env e n d r c) eqn:E; cbn [rbind]
         end.

(** Start-up fails exactly when AF_PG_PASSWORD is unset; every other
    variable, set or not, well-formed or not, lets start-up proceed. *)
Theorem load_config_fails_iff_no_password e :
  (exists err, load_config e = Err err) <-> getenv "AF_PG_PASSWORD"%string e = None.
Proof.
  unfold load_config. do 4 env_step.
  destruct (getenv "AF_PG_PASSWORD"%string e) as [p|] eqn:Hp.
  - destruct (env_required_present e _ p CastStr Hp) as [pw Epw]. rewrite Epw. cbn [rbind].
    do 6 env_step. split; [intros [err H]; discriminate | discriminate].
  - unfold env at 1, os_getenv. rewrite Hp. cbn [rbind].
    split; [reflexivity | intros _; eexists; reflexivity].
Qed.

Lemma load_config_fails_iff_no_password_witness :
  exists err, load_config [("AF_PG_HOST", "db")]%string = Err err.
Proof. apply load_config_fails_iff_no_password. reflexivity. Defined.

Lemma env_int_default e n z0 v :
  env e n (PyInt z0) false CastInt = Ok v -> exists z, v = PyInt z.
Proof.
  unfold env, os_getenv. destruct (getenv n e) as [s|]; simpl.
  - destruct (py_int_of_string s); intro H; injection H as <-; eauto.
  - intro H; injection H as <-; eauto.
Qed.

Lemma env_str_default e n s0 v :
  env e n (PyStr s0) false CastStr = Ok v -> exists s, v = PyStr s.
Proof.
  unfold env, os_getenv. destruct (getenv n e) as [s|]; simpl;
    intro H; injection H as <-; eauto.
Qed.

Lemma env_port e n s0 v :
  env e n (PyStr s0) false CastInt = Ok v -> v = PyStr s0 \/ exists z, v = PyInt z.
Proof.
  unfold env, os_getenv. destruct (getenv n e) as [s|]; simpl.
  - destruct (py_int_of_string s); intro H; injection H as <-; eauto.
  - destruct (py_int_of_string s0); intro H; injection H as <-; eauto.
Qed.

(** The types of the loaded settings: the interval, the exporter port and
    the three thresholds are always integers (their defaults are integers),
    host, database, user, password and bind address are always strings,
    and the database port is an integer or the uncast default "5432". *)
Theorem load_config_types e cfg :
  load_config e = Ok cfg ->
  (exists s, PG_HOST cfg = PyStr s) /\
  (PG_PORT cfg = PyStr "5432"%string \/ exists z, PG_PORT cfg = PyInt z) /\
  (exists s, PG_DB cfg = PyStr s) /\ (exists s, PG_USER cfg = PyStr s) /\
  (exists s, PG_PASSWORD cfg = PyStr s) /\
  (exists z, SCRAPE_INTERVAL cfg = PyInt z) /\ (exists z, EXPORTER_PORT cfg = PyInt z) /\
  (exists s, EXPORTER_ADDR cfg = PyStr s) /\
  (exists z, CFG_WARN_IDLE_IN_TX cfg = PyInt z) /\
  (exists z, CFG_WARN_ACTIVE_CONN cfg = PyInt z) /\
  (exists z, CFG_WARN_LATENCY_MS cfg = PyInt z).
Proof.
  unfold load_config. config_steps; try discriminate.
  intro H; injection H as <-; simpl.
  match goal with H : env e "AF_PG_PASSWORD"%string PyNone true CastStr = Ok ?p |- _ =>
    assert (Hpw : exists s, p = PyStr s);
    [ revert H; unfold env, os_getenv; destruct (getenv "AF_PG_PASSWORD"%string e); simpl;
      [intro H; injection H as <-; eauto | discriminate] | ] end.
  repeat split;
    repeat match goal with
           | H : env _ _ (PyInt _) false CastInt = Ok _ |- _ => apply env_int_default in H
           | H : env _ _ (PyStr _) false CastStr = Ok _ |- _ => apply env_str_default in H
           | H : env _ _ (PyStr _) false CastInt = Ok _ |- _ => apply env_port in H
           end; assumption.
Qed.

Lemma load_config_types_witness :
  exists cfg, load_config [("AF_PG_PASSWORD", "x"); ("AF_PG_PORT", "abc")]%string = Ok cfg /\
  ((exists s, PG_HOST cfg = PyStr s) /\
  (PG_PORT cfg = PyStr "5432"%string \/ exists z, PG_PORT cfg = PyInt z) /\
  (exists s, PG_DB cfg = PyStr s) /\ (exists s, PG_USER cfg = PyStr s) /\
  (exists s, PG_PASSWORD cfg = PyStr s) /\
  (exists z, SCRAPE_INTERVAL cfg = PyInt z) /\ (exists z, EXPORTER_PORT cfg = PyInt z) /\
  (exists s, EXPORTER_ADDR cfg = PyStr s) /\
  (exists z, CFG_WARN_IDLE_IN_TX cfg = PyInt z) /\
  (exists z, CFG_WARN_ACTIVE_CONN cfg = PyInt z) /\
  (exists z, CFG_WARN_LATENCY_MS cfg = PyInt z)).
Proof.
  eexists. split; [reflexivity|]. apply load_config_types with (e := [("AF_PG_PASSWORD", "x"); ("AF_PG_PORT", "abc")]%string).
  reflexivity.
Defined.

(** ** Rows with NULL sums *)

Lemma sim_skip : simulates (fun x => x) skip Py.skip.
Proof. intro s; reflexivity. Qed.

Lemma sim_raise {A B} (f : A -> B) e : simulates f (raise e) (Py.raise e).
Proof. intro s; reflexivity. Qed.

Lemma sim_bind {A B C D} (f : A -> B) (h : C -> D) m pm k pk :
  simulates f m pm -> (forall a, simulates h (k a) (pk (f a))) ->
  simulates h (bind m k) (Py.bind pm pk).
Proof.
  intros Hm Hk s. unfold bind, Py.bind. rewrite Hm.
  destruct (m s) as [[a|e] s']; simpl; [apply Hk | reflexivity].
Qed.

Lemma sim_try_except {A B} (f : A -> B) b pb h ph :
  simulates f b pb -> (forall e, simulates f (h e) (ph e)) ->
  simulates f (try_except b h) (Py.try_except pb ph).
Proof.
  intros Hb Hh s. unfold try_except, Py.try_except. rewrite Hb.
  destruct (b s) as [[a|e] s']; simpl; [reflexivity | apply Hh].
Qed.

Lemma sim_try_except_finally {A B} (f : A -> B) b pb h ph fin pfin :
  simulates f b pb -> (forall e, simulates f (h e) (ph e)) ->
  simulates (fun x => x) fin pfin ->
  simulates f (try_except_finally b h fin) (Py.try_except_finally pb ph pfin).
Proof.
  intros Hb Hh Hf s. unfold try_except_finally, Py.try_except_finally.
  rewrite (sim_try_except f b pb h ph Hb Hh s).
  destruct (try_except b h s) as [r s1]; simpl.
  rewrite Hf. destruct (fin s1) as [[u|e] s2]; reflexivity.
Qed.

Lemma sim_emit ev : simulates (fun x => x) (emit ev) (Py.emit ev).
Proof. intro s; reflexivity. Qed.

Lemma sim_set_gauge n v : simulates (fun x => x) (set_gauge n v) (Py.set_gauge n v).
Proof. intro s; reflexivity. Qed.

Lemma sim_set_gauge_int n z :
  simulates (fun x => x) (set_gauge n (inject_Z z)) (Py.set_gauge_int n (Some z)).
Proof. intro s; reflexivity. Qed.

Lemma sim_get_locals : simulates lift_locals get_locals Py.get_locals.
Proof. intro s; reflexivity. Qed.

Lemma sim_modify_locals f pf :
  (forall l, pf (lift_locals l) = lift_locals (f l)) ->
  simulates (fun x => x) (modify_locals f) (Py.modify_locals pf).
Proof. intros H s. unfold modify_locals, Py.modify_locals, lift_state; simpl. now rewrite H. Qed.

Lemma sim_assign_status v :
  simulates (fun x => x) (assign_status v) (Py.assign_status v).
Proof. intro s; reflexivity. Qed.

Lemma sim_status_max k : simulates (fun x => x) (status_max k) (Py.status_max k).
Proof. intro s; reflexivity. Qed.

Lemma sim_execute {A} q (o : outcome A) :
  simulates (fun x => x) (execute_fetchone q o) (Py.execute_fetchone q o).
Proof. intro s; destruct o; reflexivity. Qed.

Lemma sim_execute_stats q o :
  simulates (option_map lift_row) (execute_fetchone q o) (Py.execute_fetchone q (lift_stats o)).
Proof. intro s; destruct o; reflexivity. Qed.

Lemma sim_conn_close : simulates (fun x => x) conn_close Py.conn_close.
Proof. intro s; reflexivity. Qed.

Create HintDb sim.
#[local] Hint Resolve sim_ret sim_skip sim_raise sim_emit sim_set_gauge sim_set_gauge_int
  sim_get_locals sim_assign_status sim_status_max sim_execute sim_execute_stats
  sim_conn_close : sim.

Ltac sim_step :=
  cbv beta;
  match goal with
  | |- simulates _ _ (Py.bind (Py.py_gt (Some ?z) ?k) ?pm) =>
      change (Py.bind (Py.py_gt (Some z) k) pm) with (pm (k <? z))
  | |- simulates _ (bind _ _) (Py.bind _ _) => eapply sim_bind; [|intro]
  | |- simulates _ (try_except_finally _ _ _) (Py.try_except_finally _ _ _) =>
      apply sim_try_except_finally; [| intro |]
  | |- simulates _ (try_except _ _) (Py.try_except _ _) => apply sim_try_except; [| intro]
  | |- simulates _ (modify_locals _) (Py.modify_locals _) =>
      apply sim_modify_locals; intro;
      try match goal with |- context [row_or_zero ?r] => destruct r as [[[? ?] ?]|] end;
      reflexivity
  | |- simulates _ (if ?b then _ else _) (if ?b then _ else _) => destruct b
  | |- simulates _ (match ?x with _ => _ end) (match ?x with _ => _ end) => destruct x
  | |- simulates _ _ _ => solve [auto with sim]
  end.

Lemma sim_query_block w :
  simulates (fun x => x) (query_block w) (Py.query_block (lift_world w)).
Proof.
  unfold query_block, Py.query_block. cbn [lift_world Py.w_select1 Py.w_t0 Py.w_t1
    Py.w_db_stats Py.w_af_stats].
  repeat sim_step.
Qed.

Lemma sim_analyse th : simulates (fun x => x) (analyse th) (Py.analyse th).
Proof.
  unfold analyse, Py.analyse. eapply sim_bind; [apply sim_get_locals|]. intro l.
  cbn [lift_locals Py.latency_ms Py.db_total Py.db_active Py.db_idle_in_tx
    Py.af_total Py.af_active Py.af_idle_in_tx Py.status].
  repeat sim_step.
Qed.

#[local] Hint Resolve sim_query_block sim_analyse : sim.


Ltac py_simpl :=
  cbv beta iota zeta delta [Py.run_cycle Py.cycle_gauges Py.scrape_once Py.query_block
    Py.analyse Py.tcp_check Py.pg_connect Py.execute_fetchone Py.conn_close
    Py.try_except_finally Py.try_except Py.bind Py.ret Py.skip Py.raise Py.emit
    Py.set_gauge Py.set_gauge_int Py.py_gt Py.get_locals Py.modify_locals
    Py.assign_status Py.status_max Py.with_status Py.with_latency Py.with_db Py.with_af
    Py.row_or_zero Py.locals0 Py.st_gauges Py.st_locals Py.st_log Py.status
    Py.latency_ms Py.db_total Py.db_active Py.db_idle_in_tx Py.af_total Py.af_active
    Py.af_idle_in_tx Py.w_tcp_ok Py.w_connect_ok Py.w_select1 Py.w_t0 Py.w_t1
    Py.w_db_stats Py.w_af_stats null_read has_null negb andb orb app fst snd].

Ltac py_cases w :=
  destruct w as [tcp con s1 t0 t1 db af];
  destruct tcp; [destruct con|];
  [destruct s1 as [e1|row];
   [|destruct db as [e2|[[[[a|] [i|]] t]|]];
     try destruct af as [e3|[[[[a'|] [i'|]] t']|]]]| |].



(** When a cycle reads a NULL sum, it has already published [airflow_pg_up]
    as 1, but the [TypeError] leaves [airflow_pg_status] at the value the
    previous cycle published. *)
Theorem null_read_keeps_status th w g :
  Py.w_tcp_ok w = true -> Py.w_connect_ok w = true -> null_read w = true ->
  Py.cycle_gauges th w g PG_UP = 1%Q /\ Py.cycle_gauges th w g PG_STATUS = g PG_STATUS.
Proof.
  intros Ht Hc Hn. py_cases w; simpl in Ht, Hc; try discriminate;
    py_simpl; simpl in Hn; try discriminate; case_ifs; cbv [gauge_set]; simpl;
    split; reflexivity.
Qed.

Lemma null_read_keeps_status_witness :
  Py.cycle_gauges default_thresholds null_db_row_then_raise_world earlier_gauges PG_UP = 1%Q /\
  Py.cycle_gauges default_thresholds null_db_row_then_raise_world earlier_gauges PG_STATUS =
    earlier_gauges PG_STATUS.
Proof.
  apply null_read_keeps_status; reflexivity.
Defined.

(** C5 (counterexample): the session is open, SELECT 1 returns [(1,)], the
    DB query fetches [(None, None, 0)] (no session has [datname = PG_DB])
    and the Airflow query raises. The exception is caught and the
    connection closed, but [PG_DB_ACTIVE.set(None)] (line 186, after the
    [try]) raises [TypeError] out of [scrape_once]: the cycle crashes, and
    the status and the Airflow counts keep the values the previous cycle
    published instead of CRITICAL and the partial data. *)
Lemma query_exception_null_row_crashes :
  fst (Py.run_cycle default_thresholds null_db_row_then_raise_world earlier_gauges) =
    Err TypeError /\
  Py.st_log (snd (Py.run_cycle default_thresholds null_db_row_then_raise_world earlier_gauges)) =
    [EvTcpCheck; EvConnect; EvExecute SELECT_1; EvExecute DB_STATS_QUERY;
     EvExecute AF_STATS_QUERY; EvClose] /\
  Py.cycle_gauges default_thresholds null_db_row_then_raise_world earlier_gauges PG_STATUS = 7%Q /\
  Py.cycle_gauges default_thresholds null_db_row_then_raise_world earlier_gauges PG_AF_TOTAL = 7%Q.
Proof. repeat split; vm_compute; reflexivity. Qed.
